(** * oliver: the workflow query pipeline of [workflows.py] and [subcommands/status.py]

    A shallow embedding of the status query (status selection, label and
    time-window construction, sorting, batch selection, status filtering and
    the summary aggregation), followed by the properties proved about it.

    Conventions.
    - Python exceptions are values of [result]: [Ok v] or [Raise e].
    - A workflow record (a Python dict) is the record [Workflow]; a key that
      may be missing is an [option] field.
    - The [submission] key is kept as the instant it denotes, in
      milliseconds.  The server sends fixed-width UTC strings, on which the
      string order used by [sorted] is the order of the instants.
    - [datetime.datetime.now()] is an input ([now]) of the functions that
      read the clock. *)

From Stdlib Require Import ZArith Lia Ascii String List Sorting.Sorted Permutation.
From stdpp Require Import base option list list_numbers strings gmap.

Local Open Scope string_scope.
Local Open Scope list_scope.
Local Open Scope Z_scope.

(** ** Python runtime: exceptions, [max], [sorted], truthiness *)

Inductive exn : Type :=
  | ValueError
  | KeyError
  | OverflowError.

Inductive result (A : Type) : Type :=
  | Ok (a : A)
  | Raise (e : exn).

Arguments Ok {A} a.
Arguments Raise {A} e.

#[global] Instance result_ret : MRet result := @Ok.

#[global] Instance result_bind : MBind result :=
  fun A B (f : A -> result B) (m : result A) =>
    match m with
    | Ok a => f a
    | Raise e => Raise e
    end.

(** [max(xs)]: raises [ValueError] on an empty sequence. *)
Definition py_max (xs : list Z) : result Z :=
  match xs with
  | [] => Raise ValueError
  | x :: rest => Ok (foldl Z.max x rest)
  end.

(** One step of a stable insertion: [x] goes in front of the first element
    whose key is not smaller. *)
Fixpoint insert_by {A : Type} (key : A -> Z) (x : A) (l : list A) : list A :=
  match l with
  | [] => [x]
  | y :: rest =>
      if key x <=? key y then x :: y :: rest else y :: insert_by key x rest
  end.

(** [sorted(l, key=key)]: ascending and stable (equal keys keep their input
    order). *)
Fixpoint py_sorted {A : Type} (key : A -> Z) (l : list A) : list A :=
  match l with
  | [] => []
  | x :: rest => insert_by key x (py_sorted key rest)
  end.

(** Truthiness of an optional string: [None] and the empty string are falsy. *)
Definition truthy_str (s : option string) : bool :=
  match s with
  | Some (String _ _) => true
  | _ => false
  end.

(** Truthiness of an optional list: [None] and the empty list are falsy. *)
Definition truthy_list {A : Type} (l : option (list A)) : bool :=
  match l with
  | Some (_ :: _) => true
  | _ => false
  end.

(** ** The [datetime] module, as far as the time window uses it *)

Module datetime.

(** A naive [datetime]: microseconds since [datetime.min]
    (0001-01-01T00:00:00). *)
Definition US_PER_SECOND : Z := 1000000.
Definition US_PER_HOUR : Z := 3600 * US_PER_SECOND.
Definition US_PER_DAY : Z := 24 * US_PER_HOUR.

(** [date.max.toordinal()], the ordinal of 9999-12-31. *)
Definition MAXORDINAL : Z := 3652059.

(** [datetime.max], 9999-12-31T23:59:59.999999. *)
Definition max : Z := MAXORDINAL * US_PER_DAY - 1.

Definition valid (d : Z) : Prop := 0 <= d <= max.

(** [timedelta(hours=h)]: a duration in microseconds; more than 999999999
    days in either direction is an [OverflowError]. *)
Definition timedelta_hours (h : Z) : result Z :=
  let us := h * US_PER_HOUR in
  if 999999999 <? Z.abs (us / US_PER_DAY) then Raise OverflowError else Ok us.

(** [d - td]: an [OverflowError] when the result leaves
    [datetime.min .. datetime.max]. *)
Definition sub (d td : Z) : result Z :=
  let r := d - td in
  if (0 <=? r) && (r <=? max) then Ok r else Raise OverflowError.

(** [d.replace(microsecond=0)]. *)
Definition replace_microsecond_0 (d : Z) : Z := d - d mod US_PER_SECOND.

Definition microsecond (d : Z) : Z := d mod US_PER_SECOND.
Definition second (d : Z) : Z := (d / US_PER_SECOND) mod 60.
Definition minute (d : Z) : Z := (d / (60 * US_PER_SECOND)) mod 60.
Definition hour (d : Z) : Z := (d / US_PER_HOUR) mod 24.
Definition toordinal (d : Z) : Z := d / US_PER_DAY + 1.

Definition DAYS_IN_MONTH : list Z :=
  [-1; 31; 28; 31; 30; 31; 30; 31; 31; 30; 31; 30; 31].
Definition DAYS_BEFORE_MONTH : list Z :=
  [-1; 0; 31; 59; 90; 120; 151; 181; 212; 243; 273; 304; 334].

Definition nth_Z (l : list Z) (i : Z) : Z := nth (Z.to_nat i) l 0.

(** [_ord2ymd]: proleptic Gregorian ordinal to (year, month, day). *)
Definition ord2ymd (ordinal : Z) : Z * Z * Z :=
  let n := ordinal - 1 in
  let n400 := n / 146097 in
  let n := n mod 146097 in
  let year := n400 * 400 + 1 in
  let n100 := n / 36524 in
  let n := n mod 36524 in
  let n4 := n / 1461 in
  let n := n mod 1461 in
  let n1 := n / 365 in
  let n := n mod 365 in
  let year := year + n100 * 100 + n4 * 4 + n1 in
  if (n1 =? 4) || (n100 =? 4) then (year - 1, 12, 31)
  else
    let leapyear := (n1 =? 3) && (negb (n4 =? 24) || (n100 =? 3)) in
    let month := Z.shiftr (n + 50) 5 in
    let preceding :=
      nth_Z DAYS_BEFORE_MONTH month
      + (if (2 <? month) && leapyear then 1 else 0) in
    if n <? preceding then
      let month := month - 1 in
      let preceding :=
        preceding
        - (nth_Z DAYS_IN_MONTH month
           + (if (month =? 2) && leapyear then 1 else 0)) in
      (year, month, n - preceding + 1)
    else (year, month, n - preceding + 1).

Definition digit (n : Z) : ascii := ascii_of_nat (48 + Z.to_nat (n mod 10)).

(** ["%0wd" % n] for [0 <= n < 10^w]. *)
Fixpoint zpad (w : nat) (n : Z) : string :=
  match w with
  | O => ""
  | S w' => zpad w' (n / 10) +:+ String (digit n) ""
  end.

(** [d.isoformat("T")]: the fraction is printed only when it is not zero. *)
Definition isoformat (d : Z) : string :=
  let '(y, m, dd) := ord2ymd (toordinal d) in
  zpad 4 y +:+ "-" +:+ zpad 2 m +:+ "-" +:+ zpad 2 dd +:+ "T"
  +:+ zpad 2 (hour d) +:+ ":" +:+ zpad 2 (minute d) +:+ ":"
  +:+ zpad 2 (second d)
  +:+ (if microsecond d =? 0 then "" else "." +:+ zpad 6 (microsecond d)).

(** The instant of a calendar date and time of day, for writing examples:
    [ordinal] is [date(...).toordinal()]. *)
Definition at_ordinal (ordinal h m s us : Z) : Z :=
  (ordinal - 1) * US_PER_DAY + h * US_PER_HOUR + m * 60 * US_PER_SECOND
  + s * US_PER_SECOND + us.

End datetime.

(** ** Data model *)

(** A workflow record of the listing call.  [wf_batch] is the ["batch"] key,
    absent until the batch module has set it. *)
Record Workflow : Type := mkWorkflow {
  wf_id : string;
  wf_status : string;
  wf_submission : Z;
  wf_name : option string;
  wf_batch : option Z
}.

(** The metadata of one workflow: its (possibly newer) status and labels. *)
Record Metadata : Type := mkMetadata {
  md_status : string;
  md_labels : gmap string string
}.

(** ** [api]: the Cromwell client, a collaborator *)

Module api.

(** The keyword arguments of [get_workflows_query]. *)
Record Query : Type := mkQuery {
  includeSubworkflows : bool;
  labels : list string;
  ids : list (option string);
  names : list (option string);
  submission : option string
}.

Record CromwellAPI : Type := mkCromwellAPI {
  get_workflows_query : Query -> list Workflow;
  get_workflows_metadata : string -> Metadata
}.

End api.

(** ** [batch]: the clusterer *)

Module batch.

(** [w["batch"] = b]. *)
Definition set_batch (w : Workflow) (b : Z) : Workflow :=
  {| wf_id := wf_id w; wf_status := wf_status w;
     wf_submission := wf_submission w; wf_name := wf_name w;
     wf_batch := Some b |}.

(** Modelled from the spec: the single pass of [batch.batch_workflows]
    ([oliver/batch.py] is not among the sources).  It keeps
    [current_batch_index] and [previous_timestamp]; the first record takes
    the current index, a later one increments it first when its gap to the
    previous record is at least the threshold; [previous_timestamp] then
    becomes the record's own timestamp. *)
Fixpoint walk (threshold current_batch_index : Z)
    (previous_timestamp : option Z) (workflows : list Workflow)
    : list Workflow :=
  match workflows with
  | [] => []
  | w :: rest =>
      let index :=
        match previous_timestamp with
        | None => current_batch_index
        | Some previous =>
            if threshold <=? wf_submission w - previous
            then current_batch_index + 1
            else current_batch_index
        end in
      set_batch w index :: walk threshold index (Some (wf_submission w)) rest
  end.

(** Modelled from the spec: [batch.batch_workflows(workflows,
    batch_interval_mins)], the walk started at index 0 with no previous
    timestamp; the threshold is given in minutes. *)
Definition batch_workflows (workflows : list Workflow)
    (batch_interval_mins : Z) : list Workflow :=
  walk (batch_interval_mins * 60000) 0 None workflows.

End batch.

(** [w["batch"]]: a [KeyError] when the key is missing. *)
Definition get_batch (w : Workflow) : result Z :=
  match wf_batch w with
  | Some b => Ok b
  | None => Raise KeyError
  end.

(** ** [workflows.py] *)

Module workflows.
Section workflows.

(** [constants.OLIVER_JOB_NAME_KEY] and [constants.OLIVER_JOB_GROUP_KEY]. *)
Variables OLIVER_JOB_NAME_KEY OLIVER_JOB_GROUP_KEY : string.

(** Lines 90-97: the statuses opted into, [None] when there is none. *)
Definition opt_in_statuses (opt_into_reporting_running_jobs
    opt_into_reporting_aborted_jobs opt_into_reporting_failed_jobs
    opt_into_reporting_succeeded_jobs : bool) : option (list string) :=
  if opt_into_reporting_running_jobs || opt_into_reporting_aborted_jobs
     || opt_into_reporting_failed_jobs || opt_into_reporting_succeeded_jobs
  then
    let statuses : list string := [] in
    let statuses :=
      if opt_into_reporting_running_jobs then statuses ++ ["Running"]
      else statuses in
    let statuses :=
      if opt_into_reporting_aborted_jobs then statuses ++ ["Aborted"]
      else statuses in
    let statuses :=
      if opt_into_reporting_failed_jobs then statuses ++ ["Failed"]
      else statuses in
    let statuses :=
      if opt_into_reporting_succeeded_jobs then statuses ++ ["Succeeded"]
      else statuses in
    Some statuses
  else None.

(** Lines 99-104: the label filters. *)
Definition label_filters (oliver_job_name oliver_job_group_name : option string)
    : list string :=
  let labels : list string := [] in
  let labels :=
    if truthy_str oliver_job_name
    then labels ++ [OLIVER_JOB_NAME_KEY +:+ ":" +:+ default "" oliver_job_name]
    else labels in
  let labels :=
    if truthy_str oliver_job_group_name
    then labels
         ++ [OLIVER_JOB_GROUP_KEY +:+ ":" +:+ default "" oliver_job_group_name]
    else labels in
  labels.

(** Lines 106-110: the submission lower bound. *)
Definition submission_bound (now : Z) (submission_time_hours_ago : option Z)
    : result (option string) :=
  match submission_time_hours_ago with
  | Some hours =>
      if 0 <? hours then
        delta ← datetime.timedelta_hours hours;
        earlier ← datetime.sub now delta;
        mret (Some (datetime.isoformat (datetime.replace_microsecond_0 earlier)
                    +:+ "Z"))
      else mret None
  | None => mret None
  end.

(** Lines 123-128: cluster, find the largest batch number, keep the target
    batch. *)
Definition select_batch (workflows : list Workflow)
    (batch_number_ago batch_interval_mins : Z) : result (list Workflow) :=
  let workflows := batch.batch_workflows workflows batch_interval_mins in
  batches ← mapM get_batch workflows;
  max_batch_number ← py_max batches;
  let batch_number_to_target := max_batch_number - batch_number_ago in
  mret (filter (fun x => wf_batch x = Some batch_number_to_target) workflows).

(** Lines 130-131: keep the statuses asked for, when [statuses] is truthy. *)
Definition filter_statuses (statuses : option (list string))
    (workflows : list Workflow) : list Workflow :=
  if truthy_list statuses
  then filter (fun x => wf_status x ∈ default [] statuses) workflows
  else workflows.

Definition get_workflows (cromwell : api.CromwellAPI) (now : Z)
    (submission_time_hours_ago : option Z)
    (oliver_job_name oliver_job_group_name : option string)
    (cromwell_workflow_uuid cromwell_workflow_name : option string)
    (batch_number_ago : option Z) (batch_interval_mins : Z)
    (opt_into_reporting_running_jobs opt_into_reporting_aborted_jobs
     opt_into_reporting_failed_jobs opt_into_reporting_succeeded_jobs : bool)
    : result (list Workflow) :=
  let statuses :=
    opt_in_statuses opt_into_reporting_running_jobs
      opt_into_reporting_aborted_jobs opt_into_reporting_failed_jobs
      opt_into_reporting_succeeded_jobs in
  let labels := label_filters oliver_job_name oliver_job_group_name in
  submission ← submission_bound now submission_time_hours_ago;
  let workflows :=
    py_sorted wf_submission
      (api.get_workflows_query cromwell
         {| api.includeSubworkflows := false;
            api.labels := labels;
            api.ids := [cromwell_workflow_uuid];
            api.names := [cromwell_workflow_name];
            api.submission := submission |}) in
  workflows ←
    match batch_number_ago with
    | Some n => select_batch workflows n batch_interval_mins
    | None => mret workflows
    end;
  mret (filter_statuses statuses workflows).

End workflows.
End workflows.

(** ** [subcommands/status.py] *)

Module status.

(** The parsed command line, [args].  A key that [call] tests with [in] is
    an [option] ([None]: the key is missing); the connection settings
    ([cromwell_server], [cromwell_api_version]) are held by the client
    passed to [call]. *)
Record Args : Type := mkArgs {
  show_running_statuses : bool;
  show_aborted_statuses : bool;
  show_failed_statuses : bool;
  show_succeeded_statuses : bool;
  job_name : option string;
  job_group : option string;
  submission_time : option Z;
  workflow_id : option string;
  workflow_name : option string;
  batch_number_ago : option Z;
  batch_interval_mins : Z
}.

(** The summary table's cells, [agg[job_group][status]]. *)
Abbreviation Agg := (gmap string (gmap string nat)).

Section status.

(** [constants.OLIVER_JOB_NAME_KEY] and [constants.OLIVER_JOB_GROUP_KEY]. *)
Variables OLIVER_JOB_NAME_KEY OLIVER_JOB_GROUP_KEY : string.

(** [utils.get_oliver_group]: the job-group label extracted from a
    workflow's metadata, [None] when it has none. *)
Variable get_oliver_group : Metadata -> option string.

Definition get_statuses_to_query (args : Args) : option (list string) :=
  if show_running_statuses args || show_aborted_statuses args
     || show_failed_statuses args || show_succeeded_statuses args
  then
    let statuses : list string := [] in
    let statuses :=
      if show_running_statuses args then statuses ++ ["Running"]
      else statuses in
    let statuses :=
      if show_aborted_statuses args then statuses ++ ["Aborted"]
      else statuses in
    let statuses :=
      if show_failed_statuses args then statuses ++ ["Failed"]
      else statuses in
    let statuses :=
      if show_succeeded_statuses args then statuses ++ ["Succeeded"]
      else statuses in
    Some statuses
  else None.

(** Lines 24-60 of [call]: the workflows handed to the summary. *)
Definition selected_workflows (cromwell : api.CromwellAPI) (now : Z)
    (args : Args) : result (list Workflow) :=
  let statuses := get_statuses_to_query args in
  let labels : list string := [] in
  let labels :=
    if truthy_str (job_name args)
    then labels ++ [OLIVER_JOB_NAME_KEY +:+ ":" +:+ default "" (job_name args)]
    else labels in
  let labels :=
    if truthy_str (job_group args)
    then labels
         ++ [OLIVER_JOB_GROUP_KEY +:+ ":" +:+ default "" (job_group args)]
    else labels in
  submission ←
    match submission_time args with
    | Some hours =>
        if 0 <? hours then
          delta ← datetime.timedelta_hours hours;
          earlier ← datetime.sub now delta;
          mret (Some (datetime.isoformat
                        (datetime.replace_microsecond_0 earlier) +:+ "Z"))
        else mret None
    | None => mret None
    end;
  let workflows :=
    py_sorted wf_submission
      (api.get_workflows_query cromwell
         {| api.includeSubworkflows := false;
            api.labels := labels;
            api.ids := [workflow_id args];
            api.names := [workflow_name args];
            api.submission := submission |}) in
  workflows ←
    match batch_number_ago args with
    | Some n =>
        let workflows :=
          batch.batch_workflows workflows (batch_interval_mins args) in
        batches ← mapM get_batch workflows;
        max_batch_number ← py_max batches;
        let batch_number_to_target := max_batch_number - n in
        mret (filter (fun x => wf_batch x = Some batch_number_to_target)
                workflows)
    | None => mret workflows
    end;
  let workflows :=
    if truthy_list statuses
    then filter (fun x => wf_status x ∈ default [] statuses) workflows
    else workflows in
  mret workflows.

(** The group a workflow is counted under: its job group, or ["<not set>"]
    when [not job_group]. *)
Definition group_label (m : Metadata) : string :=
  let job_group := get_oliver_group m in
  if truthy_str job_group then default "" job_group else "<not set>".

(** [agg[job_group][status] += 1] on the nested [defaultdict]. *)
Definition increment (job_group status : string) (agg : Agg) : Agg :=
  let row := default ∅ (agg !! job_group) in
  <[job_group := <[status := S (default 0%nat (row !! status))]> row]> agg.

(** Lines 205-211 of [print_workflow_summary]: the loop over the
    workflows; [metadatas[w["id"]]] raises [KeyError] on a missing id. *)
Fixpoint aggregate (agg : Agg) (workflows : list Workflow)
    (metadatas : gmap string Metadata) : result Agg :=
  match workflows with
  | [] => mret agg
  | w :: rest =>
      m ← match metadatas !! wf_id w with
          | Some m => Ok m
          | None => Raise KeyError
          end;
      aggregate (increment (group_label m) (md_status m) agg) rest metadatas
  end.

(** [print_workflow_summary], up to the table it hands to the reporting
    collaborator: the aggregation [agg] of lines 203-211. *)
Definition print_workflow_summary (workflows : list Workflow)
    (metadatas : gmap string Metadata) : result Agg :=
  aggregate ∅ workflows metadatas.

(** Line 62: [{w["id"]: cromwell.get_workflows_metadata(w["id"]) for w in
    workflows}]. *)
Definition fetch_metadatas (cromwell : api.CromwellAPI)
    (workflows : list Workflow) : gmap string Metadata :=
  foldl (fun metadatas w =>
           <[wf_id w := api.get_workflows_metadata cromwell (wf_id w)]>
             metadatas)
        ∅ workflows.


End status.
End status.

(** ** Vocabulary of the properties *)

(** The time from [a]'s submission to [b]'s. *)
Definition gap (a b : Workflow) : Z := wf_submission b - wf_submission a.

(** The records of batch [k], in their order in [workflows]. *)
Definition batch_members (k : Z) (workflows : list Workflow) : list Workflow :=
  filter (fun w => wf_batch w = Some k) workflows.

(** The batch numbers in use, each once. *)
Definition batch_numbers (workflows : list Workflow) : list Z :=
  remove_dups (omap wf_batch workflows).

(** The number of batches. *)
Definition batch_count (workflows : list Workflow) : nat :=
  length (batch_numbers workflows).

(** The batches, from batch 0 to the last one. *)
Definition batches (workflows : list Workflow) : list (list Workflow) :=
  (fun k => batch_members k workflows)
    <$> seqZ 0 (Z.of_nat (batch_count workflows)).

(** [b] is [a] with a batch number attached. *)
Definition annotates (a b : Workflow) : Prop :=
  exists k, b = batch.set_batch a k.

(** A clustered sequence: every record has a batch number; a record closer
    than the threshold to its predecessor shares its number, one at least
    the threshold away takes the next number. *)
Inductive clustered (threshold : Z) : list Workflow -> Prop :=
  | clustered_nil : clustered threshold []
  | clustered_one w k :
      wf_batch w = Some k -> clustered threshold [w]
  | clustered_same a b l k :
      wf_batch a = Some k -> wf_batch b = Some k ->
      gap a b < threshold ->
      clustered threshold (b :: l) -> clustered threshold (a :: b :: l)
  | clustered_next a b l k :
      wf_batch a = Some k -> wf_batch b = Some (k + 1) ->
      threshold <= gap a b ->
      clustered threshold (b :: l) -> clustered threshold (a :: b :: l).


(** The statuses whose flag is set, in the order Running, Aborted, Failed,
    Succeeded. *)
Definition flagged_statuses (running aborted failed succeeded : bool)
    : list string :=
  snd <$> filter (fun p => fst p = true)
            [(running, "Running"); (aborted, "Aborted");
             (failed, "Failed"); (succeeded, "Succeeded")].

(** The pipeline read off its description: fetch with the server-side
    filters, sort by submission, cluster the whole candidate set and keep the
    target batch, and only then narrow by status. *)
Definition batch_then_status (candidates : list Workflow)
    (batch_number_ago batch_interval_mins : Z) (statuses : list string)
    : result (list Workflow) :=
  let sorted := py_sorted wf_submission candidates in
  let clustered := batch.batch_workflows sorted batch_interval_mins in
  max_index ← py_max (omap wf_batch clustered);
  let selected := batch_members (max_index - batch_number_ago) clustered in
  mret (filter (fun w => wf_status w ∈ statuses) selected).

(** The same steps with the status filter moved in front of the clustering. *)
Definition status_then_batch (candidates : list Workflow)
    (batch_number_ago batch_interval_mins : Z) (statuses : list string)
    : result (list Workflow) :=
  let sorted := py_sorted wf_submission candidates in
  let narrowed := filter (fun w => wf_status w ∈ statuses) sorted in
  let clustered := batch.batch_workflows narrowed batch_interval_mins in
  max_index ← py_max (omap wf_batch clustered);
  mret (batch_members (max_index - batch_number_ago) clustered).

(** How many of [workflows] the summary counts under [group] and [status]. *)
Definition cell_count (get_oliver_group : Metadata -> option string)
    (workflows : list Workflow) (metadatas : gmap string Metadata)
    (group status : string) : nat :=
  length
    (filter
       (fun w =>
          status.group_label get_oliver_group <$> metadatas !! wf_id w
          = Some group
          /\ md_status <$> metadatas !! wf_id w = Some status)
       workflows).

(** An instant cut down to whole seconds. *)
Definition whole_seconds (t : Z) : Z :=
  t / datetime.US_PER_SECOND * datetime.US_PER_SECOND.

(** [YYYY-MM-DDTHH:MM:SS] for the instant [t]. *)
Definition iso_seconds (t : Z) : string :=
  let '(y, m, d) := datetime.ord2ymd (datetime.toordinal t) in
  datetime.zpad 4 y +:+ "-" +:+ datetime.zpad 2 m +:+ "-"
  +:+ datetime.zpad 2 d +:+ "T" +:+ datetime.zpad 2 (datetime.hour t)
  +:+ ":" +:+ datetime.zpad 2 (datetime.minute t) +:+ ":"
  +:+ datetime.zpad 2 (datetime.second t).

(** The lower bound of the time window: [hours] before [now], in whole
    seconds, with a trailing Z. *)
Definition window_bound (now hours : Z) : string :=
  iso_seconds (whole_seconds (now - hours * datetime.US_PER_HOUR)) +:+ "Z".

(** The count the summary holds for a group and a status, if any. *)
Definition cell (agg : gmap string (gmap string nat)) (group status : string)
    : option nat :=
  row ← agg !! group; row !! status.

(** The summary holds exactly the cells whose count [f] is not zero. *)
Definition holds (agg : gmap string (gmap string nat))
    (f : string -> string -> nat) : Prop :=
  forall g s, cell agg g s = if decide (f g s = 0%nat) then None else Some (f g s).

(** ** Sample data *)

Module samples.

Definition workflow (id status : string) (submission : Z) : Workflow :=
  {| wf_id := id; wf_status := status; wf_submission := submission;
     wf_name := None; wf_batch := None |}.

Definition minute : Z := 60000.

(** Five submissions at T, T+2m, T+3m, T+10m and T+11m. *)
Definition five (T : Z) : list Workflow :=
  [ workflow "w0" "Succeeded" T;
    workflow "w1" "Failed" (T + 2 * minute);
    workflow "w2" "Succeeded" (T + 3 * minute);
    workflow "w3" "Running" (T + 10 * minute);
    workflow "w4" "Running" (T + 11 * minute) ].

(** Three submissions four minutes apart; the middle one has failed. *)
Definition drifting : list Workflow :=
  [ workflow "d0" "Succeeded" 0;
    workflow "d1" "Failed" (4 * minute);
    workflow "d2" "Succeeded" (8 * minute) ].

Definition grouped (group : option string) (status : string) : Metadata :=
  {| md_status := status;
     md_labels :=
       match group with
       | Some g => {[ "group" := g ]}
       | None => ∅
       end |}.

Definition get_group (m : Metadata) : option string :=
  md_labels m !! "group".

(** A client that answers every listing with [workflows]. *)
Definition client (workflows : list Workflow) : api.CromwellAPI :=
  {| api.get_workflows_query := fun _ => workflows;
     api.get_workflows_metadata := fun _ => grouped None "Running" |}.

(** 2020-01-01T17:55:06.123456. *)
Definition new_year_2020 : Z := datetime.at_ordinal 737425 17 55 6 123456.

Definition args (batch_number_ago : option Z) : status.Args :=
  {| status.show_running_statuses := false;
     status.show_aborted_statuses := false;
     status.show_failed_statuses := false;
     status.show_succeeded_statuses := false;
     status.job_name := None;
     status.job_group := None;
     status.submission_time := Some 24;
     status.workflow_id := None;
     status.workflow_name := None;
     status.batch_number_ago := batch_number_ago;
     status.batch_interval_mins := 5 |}.

(** Sample values of the two label keys. *)
Definition name_key : string := "oliver-job-name".
Definition group_key : string := "oliver-job-group-name".

(** Two workflows of the group alpha, one running and one done. *)
Definition alpha_workflows : list Workflow :=
  [workflow "a0" "Running" 0; workflow "a1" "Running" minute].

Definition alpha_metadatas : gmap string Metadata :=
  <["a0" := grouped (Some "alpha") "Running"]>
    (<["a1" := grouped (Some "alpha") "Succeeded"]> ∅).

End samples.

(** ** The summary table: lines 203-225 of [print_workflow_summary] *)

Module table.

(** A cell of a table row: the group name or a count. *)
Inductive Cell : Type :=
  | Str (s : string)
  | Int (n : nat).

(** [agg] as Python keeps it: a dict lists its keys in the order of their
    first insertion. *)
Record OrderedAgg : Type := mkOrderedAgg {
  groups : list string;
  counts : gmap string (gmap string nat)
}.

Section table.

(** [utils.get_oliver_group]. *)
Variable get_oliver_group : Metadata -> option string.

(** [agg[job_group][status] += 1]; a new group goes to the end of the keys. *)
Definition increment (job_group status : string) (agg : OrderedAgg)
    : OrderedAgg :=
  {| groups :=
       match counts agg !! job_group with
       | Some _ => groups agg
       | None => groups agg ++ [job_group]
       end;
     counts := status.increment job_group status (counts agg) |}.

(** Lines 205-211, on the ordered dict. *)
Fixpoint aggregate (agg : OrderedAgg) (workflows : list Workflow)
    (metadatas : gmap string Metadata) : result OrderedAgg :=
  match workflows with
  | [] => mret agg
  | w :: rest =>
      m ← match metadatas !! wf_id w with
          | Some m => Ok m
          | None => Raise KeyError
          end;
      aggregate
        (increment (status.group_label get_oliver_group m) (md_status m) agg)
        rest metadatas
  end.

(** Lines 213-225: the rows handed to [reporting.print_dicts_as_table].
    A row is a dict from column name to cell; the order of the columns
    inside a row (it follows the iteration of the [keys] set) is not
    kept. *)
Definition rows (workflows : list Workflow)
    (metadatas : gmap string Metadata) : result (list (gmap string Cell)) :=
  agg ← aggregate {| groups := []; counts := ∅ |} workflows metadatas;
  let keys : gset string :=
    ⋃ ((fun group => dom (default ∅ (counts agg !! group))) <$> groups agg) in
  let results :=
    (fun group =>
       (Int <$> default ∅ (counts agg !! group))
       ∪ {[ "Group Name" := Str group ]})
      <$> groups agg in
  mret ((fun r => r ∪ gset_to_gmap (Int 0%nat) keys) <$> results).

End table.
End table.

(** ** More vocabulary *)

(** The answer of the client to the query that [get_workflows] and [call]
    send. *)
Definition listing (name_key group_key : string) (cromwell : api.CromwellAPI)
    (name group uuid wname : option string) (bound : option string)
    : list Workflow :=
  api.get_workflows_query cromwell
    {| api.includeSubworkflows := false;
       api.labels := workflows.label_filters name_key group_key name group;
       api.ids := [uuid];
       api.names := [wname];
       api.submission := bound |}.


(** The record passes the status selection of the four flags. *)
Definition wanted (r a f s : bool) (w : Workflow) : Prop :=
  r || a || f || s = false \/ wf_status w ∈ flagged_statuses r a f s.

#[global] Instance wanted_dec r a f s w : Decision (wanted r a f s w).
Proof. unfold wanted. apply _. Defined.

(** The group labels of the workflows that have metadata, in order. *)
Definition group_labels (get_oliver_group : Metadata -> option string)
    (workflows : list Workflow) (metadatas : gmap string Metadata)
    : list string :=
  omap (fun w => status.group_label get_oliver_group <$> metadatas !! wf_id w)
    workflows.

(** The statuses found in the metadata of the workflows. *)
Definition statuses_seen (workflows : list Workflow)
    (metadatas : gmap string Metadata) : gset string :=
  list_to_set (omap (fun w => md_status <$> metadatas !! wf_id w) workflows).

(** The distinct elements of a list, each at its first occurrence. *)
Fixpoint first_occurrences (l : list string) : list string :=
  match l with
  | [] => []
  | x :: rest => x :: filter (fun y => y <> x) (first_occurrences rest)
  end.

(** The sum of the counts of one group, and of the whole summary. *)
Definition row_total (row : gmap string nat) : nat :=
  map_fold (fun _ n acc => (n + acc)%nat) 0%nat row.

Definition total (agg : gmap string (gmap string nat)) : nat :=
  map_fold (fun _ row acc => (row_total row + acc)%nat) 0%nat agg.

(** The row of a group: its counts, the group name, zeros elsewhere. *)
Definition row_of (c : gmap string (gmap string nat)) (keys : gset string)
    (g : string) : gmap string table.Cell :=
  ((table.Int <$> default ∅ (c !! g)) ∪ {[ "Group Name" := table.Str g ]})
  ∪ gset_to_gmap (table.Int 0%nat) keys.

(** * Properties *)

(** ** Sorting *)

Section sorting.
Context {A : Type} (key : A -> Z).

Lemma insert_by_Permutation x l : insert_by key x l ≡ₚ x :: l.
Proof.
  induction l as [|y l IH]; simpl; [done|].
  destruct (key x <=? key y); [done|].
  rewrite IH. apply Permutation_swap.
Qed.

Lemma py_sorted_Permutation l : py_sorted key l ≡ₚ l.
Proof.
  induction l as [|x l IH]; simpl; [done|].
  by rewrite insert_by_Permutation, IH.
Qed.

Lemma insert_by_sorted x l :
  StronglySorted (fun a b => key a <= key b) l ->
  StronglySorted (fun a b => key a <= key b) (insert_by key x l).
Proof.
  induction 1 as [|y l Hl IH Hy]; simpl.
  - repeat constructor.
  - destruct (Z.leb_spec (key x) (key y)) as [Hxy|Hxy].
    + constructor; [by constructor|].
      constructor; [done|].
      eapply Forall_impl; [exact Hy|]. simpl. intros; lia.
    + constructor; [done|].
      rewrite insert_by_Permutation. constructor; [lia|done].
Qed.

Lemma py_sorted_sorted l :
  StronglySorted (fun a b => key a <= key b) (py_sorted key l).
Proof.
  induction l as [|x l IH]; simpl; [constructor|].
  by apply insert_by_sorted.
Qed.

Lemma py_sorted_nil_inv l : py_sorted key l = [] -> l = [].
Proof.
  intros H. apply Permutation_nil_r. rewrite <- H.
  symmetry. apply py_sorted_Permutation.
Qed.



(** In a sorted list the last element carries the largest key. *)
Lemma sorted_last_max l z :
  StronglySorted (fun a b => key a <= key b) l ->
  last l = Some z -> forall x, x ∈ l -> key x <= key z.
Proof.
  induction 1 as [|y l Hl IH Hy]; intros Hz x Hx.
  - by apply elem_of_nil in Hx.
  - destruct l as [|y' l'].
    + simpl in Hz. apply list_elem_of_singleton in Hx. naive_solver lia.
    + rewrite last_cons_cons in Hz.
      apply elem_of_cons in Hx as [->|Hx]; [|by apply IH].
      rewrite Forall_forall in Hy. apply Hy.
      by apply last_Some_elem_of.
Qed.
End sorting.

(** ** The clusterer's invariant *)

Lemma walk_clustered threshold c p ws :
  clustered threshold (batch.walk threshold c p ws).
Proof.
  revert c p. induction ws as [|w ws IH]; intros c p; [constructor|].
  destruct ws as [|w' ws']; [by econstructor|].
  simpl. set (i := match p with Some _ => _ | None => _ end).
  specialize (IH i (Some (wf_submission w))). simpl in IH.
  destruct (Z.leb_spec threshold (wf_submission w' - wf_submission w)).
  - by eapply clustered_next with (k := i).
  - by eapply clustered_same with (k := i).
Qed.

Lemma walk_annotates threshold c p ws :
  Forall2 annotates ws (batch.walk threshold c p ws).
Proof.
  revert c p. induction ws as [|w ws IH]; intros c p; simpl; constructor.
  - by eexists.
  - apply IH.
Qed.

Lemma batch_workflows_clustered ws mins :
  clustered (mins * 60000) (batch.batch_workflows ws mins).
Proof. apply walk_clustered. Qed.

Lemma batch_workflows_head ws mins b :
  head (batch.batch_workflows ws mins) = Some b -> wf_batch b = Some 0.
Proof. destruct ws; simpl; [done|]. by intros [= <-]. Qed.

Lemma batch_workflows_nil_inv ws mins :
  batch.batch_workflows ws mins = [] -> ws = [].
Proof. by destruct ws. Qed.

Lemma clustered_tail threshold a l :
  clustered threshold (a :: l) -> clustered threshold l.
Proof. inversion 1; subst; by try constructor. Qed.

Lemma clustered_head threshold a l :
  clustered threshold (a :: l) -> is_Some (wf_batch a).
Proof. inversion 1; subst; by eexists. Qed.

(** Batch numbers never go down along a clustered sequence. *)
Lemma clustered_ge threshold a l k :
  clustered threshold (a :: l) -> wf_batch a = Some k ->
  Forall (fun b => exists j, wf_batch b = Some j /\ k <= j) l.
Proof.
  revert a k. induction l as [|b l IH]; intros a k Hc Ha; [constructor|].
  inversion Hc as [| |? ? ? k' Ha' Hb _ Hc'|? ? ? k' Ha' Hb _ Hc']; subst;
    rewrite Ha in Ha'; injection Ha' as <-.
  - constructor; [exists k; split; [done|lia]|]. by eapply IH.
  - constructor; [exists (k + 1); split; [done|lia]|].
    eapply Forall_impl; [by eapply IH|].
    simpl. intros x (j & ? & ?). exists j. split; [done|lia].
Qed.

Lemma clustered_all_Some threshold l :
  clustered threshold l -> Forall (fun b => is_Some (wf_batch b)) l.
Proof.
  destruct l as [|a l]; [constructor|]. intros Hc.
  destruct (clustered_head _ _ _ Hc) as [k Hk].
  constructor; [by eexists|].
  eapply Forall_impl; [by eapply clustered_ge|].
  simpl. intros x (j & ? & ?). by eexists.
Qed.

Lemma batch_members_cons k a l :
  batch_members k (a :: l)
  = if decide (wf_batch a = Some k) then a :: batch_members k l
    else batch_members k l.
Proof. unfold batch_members. by rewrite filter_cons. Qed.

Lemma batch_members_below k l :
  Forall (fun b => exists j, wf_batch b = Some j /\ k < j) l ->
  batch_members k l = [].
Proof.
  induction 1 as [|b l (j & Hj & ?) _ IH]; [done|].
  rewrite batch_members_cons, IH. case_decide; [|done].
  rewrite Hj in *. simplify_eq. lia.
Qed.

Lemma clustered_members_below threshold a l k j :
  clustered threshold (a :: l) -> wf_batch a = Some k -> j < k ->
  batch_members j (a :: l) = [].
Proof.
  intros Hc Ha Hj. apply batch_members_below. constructor.
  - exists k. split; [done|lia].
  - eapply Forall_impl; [by eapply clustered_ge|].
    simpl. intros x (i & ? & ?). exists i. split; [done|lia].
Qed.

(** Inside a batch, neighbours are closer than the threshold. *)
Lemma clustered_within threshold l k :
  clustered threshold l ->
  Sorted (fun a b => gap a b < threshold) (batch_members k l).
Proof.
  induction 1 as [|w j Hw|a b l j Ha Hb Hgap Hc IH|a b l j Ha Hb Hgap Hc IH].
  - constructor.
  - rewrite batch_members_cons. case_decide; repeat constructor.
  - rewrite batch_members_cons. case_decide as Hk; [|done].
    rewrite batch_members_cons in IH |- *.
    rewrite decide_True in IH |- * by congruence.
    constructor; [done|]. by constructor.
  - rewrite batch_members_cons. case_decide as Hk; [|done].
    rewrite (clustered_members_below threshold b l (j + 1) k);
      [repeat constructor|done|done|].
    rewrite Ha in Hk. simplify_eq. lia.
Qed.

(** Where one batch ends and the next begins, the two records are at least
    the threshold apart. *)
Lemma clustered_boundary threshold l k a b :
  clustered threshold l ->
  last (batch_members k l) = Some a ->
  head (batch_members (k + 1) l) = Some b ->
  threshold <= gap a b.
Proof.
  induction 1 as [|w j Hw|x y l j Hx Hy Hgap Hc IH|x y l j Hx Hy Hgap Hc IH];
    intros Ha Hb.
  - done.
  - rewrite batch_members_cons in Ha, Hb.
    repeat case_decide; simplify_eq; try done. lia.
  - rewrite batch_members_cons in Ha, Hb.
    destruct (decide (wf_batch x = Some k)) as [Hk|Hk].
    + rewrite decide_False in Hb by (rewrite Hk; intros [=]; lia).
      apply IH; [|done].
      rewrite batch_members_cons in Ha |- *.
      rewrite decide_True in Ha |- * by congruence.
      by rewrite last_cons_cons in Ha.
    + destruct (decide (wf_batch x = Some (k + 1))) as [Hk'|Hk']; [|by apply IH].
      rewrite (clustered_members_below threshold y l j k) in Ha;
        [done|done|done|].
      rewrite Hx in Hk'. simplify_eq. lia.
  - rewrite batch_members_cons in Ha, Hb.
    destruct (decide (wf_batch x = Some k)) as [Hk|Hk].
    + rewrite decide_False in Hb by (rewrite Hk; intros [=]; lia).
      rewrite Hx in Hk. simplify_eq.
      rewrite (clustered_members_below threshold y l (k + 1) k) in Ha
        by (done || lia).
      rewrite batch_members_cons, decide_True in Hb by done.
      simpl in Ha, Hb. by simplify_eq.
    + destruct (decide (wf_batch x = Some (k + 1))) as [Hk'|Hk']; [|by apply IH].
      rewrite (clustered_members_below threshold y l (j + 1) k) in Ha;
        [done|done|done|].
      rewrite Hx in Hk'. simplify_eq. lia.
Qed.

(** ** The largest batch number and the number of batches *)

Lemma foldl_max_le x l :
  x <= foldl Z.max x l /\ Forall (fun i => i <= foldl Z.max x l) l.
Proof.
  revert x. induction l as [|y l IH]; intros x; simpl; [split; [lia|constructor]|].
  destruct (IH (Z.max x y)) as [H1 H2].
  split; [lia|]. constructor; [lia|done].
Qed.

Lemma py_max_ge l m i : py_max l = Ok m -> i ∈ l -> i <= m.
Proof.
  destruct l as [|x l]; [done|]. intros [= <-] Hi.
  destruct (foldl_max_le x l) as [H1 H2].
  apply elem_of_cons in Hi as [->|Hi]; [done|].
  rewrite Forall_forall in H2. by apply H2.
Qed.

Lemma py_max_nil_inv l : py_max l = Raise ValueError <-> l = [].
Proof. by destruct l. Qed.

Lemma mapM_get_batch l :
  Forall (fun b => is_Some (wf_batch b)) l ->
  mapM get_batch l = Ok (omap wf_batch l).
Proof.
  induction 1 as [|b l [k Hk] _ IH]; [done|].
  change (mapM get_batch (b :: l))
    with (y ← get_batch b; ys ← mapM get_batch l; mret (y :: ys)).
  rewrite IH. unfold get_batch. rewrite Hk. simpl. by rewrite Hk.
Qed.

Lemma omap_batch_cons a l k :
  wf_batch a = Some k -> omap wf_batch (a :: l) = k :: omap wf_batch l.
Proof. intros H. simpl. by rewrite H. Qed.

Lemma clustered_numbers_ge threshold a l k i :
  clustered threshold (a :: l) -> wf_batch a = Some k ->
  i ∈ omap wf_batch (a :: l) -> k <= i.
Proof.
  intros Hc Ha Hi. apply list_elem_of_omap in Hi as (w & Hw & Hwi).
  apply elem_of_cons in Hw as [->|Hw]; [simplify_eq; lia|].
  pose proof (clustered_ge _ _ _ _ Hc Ha) as Hge.
  rewrite Forall_forall in Hge.
  destruct (Hge w Hw) as (j & ? & ?). simplify_eq. lia.
Qed.

(** The last record of a clustered sequence carries the largest number. *)
Lemma clustered_max threshold l z k :
  clustered threshold l -> last l = Some z -> wf_batch z = Some k ->
  py_max (omap wf_batch l) = Ok k.
Proof.
  induction 1 as [|w j Hw|a b l j Ha Hb Hgap Hc IH|a b l j Ha Hb Hgap Hc IH];
    intros Hz Hk.
  - done.
  - simpl in Hz. injection Hz as ->. by rewrite (omap_batch_cons _ _ _ Hk).
  - rewrite last_cons_cons in Hz. specialize (IH Hz Hk).
    rewrite (omap_batch_cons a _ j) by done.
    rewrite (omap_batch_cons b _ j) in IH |- * by done.
    simpl in IH |- *. by rewrite Z.max_id.
  - rewrite last_cons_cons in Hz. specialize (IH Hz Hk).
    rewrite (omap_batch_cons a _ j) by done.
    rewrite (omap_batch_cons b _ (j + 1)) in IH |- * by done.
    simpl in IH |- *. by rewrite Z.max_r by lia.
Qed.

(** The number of batches is the span of the batch numbers. *)
Lemma clustered_count threshold l :
  clustered threshold l ->
  forall a k m, head l = Some a -> wf_batch a = Some k ->
    py_max (omap wf_batch l) = Ok m ->
    Z.of_nat (batch_count l) = m - k + 1.
Proof.
  unfold batch_count, batch_numbers.
  induction 1 as [|w j Hw|a b l j Ha Hb Hgap Hc IH|a b l j Ha Hb Hgap Hc IH];
    intros x k m Hx Hk Hm; [done|..];
    simpl in Hx; injection Hx as <-;
    rewrite Hk in *; match goal with H : Some _ = Some _ |- _ => injection H as -> end.
  - rewrite (omap_batch_cons _ _ _ Hk) in Hm |- *.
    simpl in Hm |- *. injection Hm as <-. lia.
  - rewrite (omap_batch_cons _ _ _ Hk) in Hm |- *.
    rewrite (omap_batch_cons _ _ _ Hb) in Hm, IH |- *.
    simpl in Hm. rewrite Z.max_id in Hm.
    cbn [remove_dups]. destruct (decide_rel _ _ _) as [_|Hnin].
    + by apply (IH b).
    + destruct Hnin. by left.
  - rewrite (omap_batch_cons _ _ _ Hk) in Hm |- *.
    rewrite (omap_batch_cons _ _ _ Hb) in Hm.
    simpl in Hm. rewrite Z.max_r in Hm by lia.
    cbn [remove_dups]. destruct (decide_rel _ _ _) as [Hin|_].
    + apply (clustered_numbers_ge _ _ _ _ _ Hc Hb) in Hin. lia.
    + cbn [length]. rewrite Nat2Z.inj_succ.
      rewrite (IH b _ m eq_refl Hb); [lia|].
      by rewrite (omap_batch_cons _ _ _ Hb).
Qed.

(** Every number from the first record's to the last record's is in use. *)
Lemma clustered_occurs threshold l :
  clustered threshold l ->
  forall a z k m i, head l = Some a -> wf_batch a = Some k ->
    last l = Some z -> wf_batch z = Some m ->
    k <= i <= m -> batch_members i l <> [].
Proof.
  induction 1 as [|w j Hw|a b l j Ha Hb Hgap Hc IH|a b l j Ha Hb Hgap Hc IH];
    intros x z k m i Hx Hk Hz Hm Hi; [done|..];
    simpl in Hx; injection Hx as <-; rewrite batch_members_cons.
  - simpl in Hz. injection Hz as <-.
    rewrite decide_True; [done|]. rewrite Hk. f_equal.
    rewrite Hk in Hm. injection Hm as <-. lia.
  - rewrite last_cons_cons in Hz. case_decide; [done|].
    eapply (IH b z j m); try done.
    rewrite Hk in Ha. injection Ha as <-. lia.
  - rewrite last_cons_cons in Hz. case_decide as Hxi; [done|].
    eapply (IH b z (j + 1) m); try done.
    rewrite Hk in Ha. injection Ha as <-.
    split; [|lia]. destruct (decide (i = k)) as [->|]; [done|lia].
Qed.

(** ** The batches partition a clustered sequence *)

Lemma concat_fmap_nil {A B : Type} (f : A -> list B) (l : list A) :
  Forall (fun x => f x = []) l -> concat (f <$> l) = [].
Proof.
  induction 1 as [|x l Hx _ IH]; [done|].
  rewrite fmap_cons. cbn [concat]. by rewrite Hx, IH.
Qed.

Lemma clustered_concat threshold l :
  clustered threshold l ->
  forall lo n, (forall i, i ∈ omap wf_batch l -> lo <= i < lo + n) ->
    concat ((fun k => batch_members k l) <$> seqZ lo n) = l.
Proof.
  induction l as [|a l IH]; intros Hc lo n Hrange.
  - apply concat_fmap_nil, Forall_forall. done.
  - destruct (clustered_head _ _ _ Hc) as [k Hk].
    assert (lo <= k < lo + n) as Hlo.
    { apply Hrange. rewrite (omap_batch_cons _ _ k) by done. by left. }
    replace n with ((k - lo) + (1 + (lo + n - k - 1))) by lia.
    rewrite seqZ_app, fmap_app, concat_app by lia.
    rewrite concat_fmap_nil.
    2:{ apply Forall_forall. intros i Hi. apply elem_of_seqZ in Hi.
        eapply clustered_members_below; [done|done|lia]. }
    replace (lo + (k - lo)) with k by lia.
    rewrite seqZ_cons by lia. rewrite fmap_cons, concat_cons.
    rewrite batch_members_cons, decide_True by done. simpl. f_equal.
    transitivity (concat ((fun i => batch_members i l)
                            <$> seqZ k (1 + (lo + n - k - 1)))).
    + rewrite (seqZ_cons k) by lia. rewrite fmap_cons, concat_cons.
      f_equal. f_equal. apply Forall_fmap_ext, Forall_forall.
      intros i Hi. apply elem_of_seqZ in Hi.
      rewrite batch_members_cons, decide_False; [done|].
      rewrite Hk. intros [=]. lia.
    + apply IH; [by eapply clustered_tail|].
      intros i Hi. split.
      * apply list_elem_of_omap in Hi as (w & Hw & Hwi).
        pose proof (clustered_ge _ _ _ _ Hc Hk) as Hge.
        rewrite Forall_forall in Hge.
        destruct (Hge w Hw) as (j & ? & ?). simplify_eq. lia.
      * assert (i ∈ omap wf_batch (a :: l)) as Hi'.
        { rewrite (omap_batch_cons _ _ k) by done. by right. }
        apply Hrange in Hi'. lia.
Qed.

(** ** The query pipeline *)

(** Batch selection, once the batch numbers are known to be set. *)
Lemma select_batch_eq ws n mins :
  workflows.select_batch ws n mins
  = (m ← py_max (omap wf_batch (batch.batch_workflows ws mins));
     mret (batch_members (m - n) (batch.batch_workflows ws mins))).
Proof.
  unfold workflows.select_batch.
  rewrite mapM_get_batch; [done|].
  eapply clustered_all_Some, batch_workflows_clustered.
Qed.

(** On a non-empty input the largest batch number is the last record's. *)
Lemma batch_workflows_last ws mins :
  ws <> [] ->
  exists z k, last (batch.batch_workflows ws mins) = Some z
    /\ wf_batch z = Some k
    /\ py_max (omap wf_batch (batch.batch_workflows ws mins)) = Ok k
    /\ Z.of_nat (batch_count (batch.batch_workflows ws mins)) = k + 1.
Proof.
  intros Hne.
  pose proof (batch_workflows_clustered ws mins) as Hc.
  destruct (last (batch.batch_workflows ws mins)) as [z|] eqn:Hz.
  2:{ apply last_None, batch_workflows_nil_inv in Hz. done. }
  pose proof (clustered_all_Some _ _ Hc) as Hall.
  rewrite Forall_forall in Hall.
  destruct (Hall z) as [k Hk]; [by eapply last_Some_elem_of|].
  pose proof (clustered_max _ _ _ _ Hc Hz Hk) as Hmax.
  exists z, k. repeat split; try done.
  destruct (head (batch.batch_workflows ws mins)) as [a|] eqn:Ha.
  2:{ apply head_None, batch_workflows_nil_inv in Ha. done. }
  rewrite (clustered_count _ _ Hc a 0 k Ha); [lia| |done].
  by eapply batch_workflows_head.
Qed.

(** [call] selects its workflows the way [get_workflows] does. *)
Lemma selected_workflows_get_workflows name_key group_key cromwell now args :
  status.selected_workflows name_key group_key cromwell now args
  = workflows.get_workflows name_key group_key cromwell now
      (status.submission_time args) (status.job_name args)
      (status.job_group args) (status.workflow_id args)
      (status.workflow_name args) (status.batch_number_ago args)
      (status.batch_interval_mins args)
      (status.show_running_statuses args) (status.show_aborted_statuses args)
      (status.show_failed_statuses args) (status.show_succeeded_statuses args).
Proof. reflexivity. Qed.

Lemma opt_in_statuses_flagged r a f s :
  workflows.opt_in_statuses r a f s
  = if r || a || f || s then Some (flagged_statuses r a f s) else None.
Proof. by destruct r, a, f, s. Qed.

Lemma filter_statuses_flagged r a f s ws :
  r || a || f || s = true ->
  workflows.filter_statuses (workflows.opt_in_statuses r a f s) ws
  = filter (fun w => wf_status w ∈ flagged_statuses r a f s) ws.
Proof. by destruct r, a, f, s. Qed.

Lemma filter_statuses_nil st : workflows.filter_statuses st [] = [].
Proof. unfold workflows.filter_statuses. by destruct (truthy_list st). Qed.

(** ** Status selection *)

(** C3: for every combination of the four flags, [get_statuses_to_query]
    (and the same lines of [get_workflows]) returns [None], and not an empty
    list, when all four are false, and otherwise exactly the statuses whose
    flag is true, in the order Running, Aborted, Failed, Succeeded. *)
Theorem C3_status_selector (args : status.Args) :
  let r := status.show_running_statuses args in
  let a := status.show_aborted_statuses args in
  let f := status.show_failed_statuses args in
  let s := status.show_succeeded_statuses args in
  status.get_statuses_to_query args
  = (if r || a || f || s then Some (flagged_statuses r a f s) else None)
  /\ workflows.opt_in_statuses r a f s = status.get_statuses_to_query args
  /\ (forall status, status ∈ flagged_statuses r a f s <->
        (status = "Running" /\ r = true) \/ (status = "Aborted" /\ a = true)
        \/ (status = "Failed" /\ f = true)
        \/ (status = "Succeeded" /\ s = true))
  /\ flagged_statuses r a f s
     `sublist_of` ["Running"; "Aborted"; "Failed"; "Succeeded"].
Proof.
  destruct args as [r a f s ? ? ? ? ? ? ?]. cbn [status.show_running_statuses
    status.show_aborted_statuses status.show_failed_statuses
    status.show_succeeded_statuses].
  split; [by destruct r, a, f, s|].
  split; [by destruct r, a, f, s|].
  split.
  - intros st.
    destruct r, a, f, s; vm_compute flagged_statuses;
      rewrite ?elem_of_cons, ?elem_of_nil; intuition congruence.
  - destruct r, a, f, s; vm_compute flagged_statuses;
      repeat first [apply sublist_nil | apply sublist_skip | apply sublist_cons].
Qed.

(** C10: whatever the four flags, the statuses built by the query are
    [None] or a non-empty list, never an empty one; so the truthiness test
    in front of the status filter is a test for [None], and the filter step
    narrows exactly when some status was opted into. *)
Theorem C10_statuses_never_empty (r a f s : bool) :
  let statuses := workflows.opt_in_statuses r a f s in
  (statuses = None \/ exists x l, statuses = Some (x :: l))
  /\ statuses <> Some []
  /\ truthy_list statuses = bool_decide (statuses <> None)
  /\ (forall name group hours uuid wname ago mins,
        status.get_statuses_to_query
          (status.mkArgs r a f s name group hours uuid wname ago mins)
        = statuses)
  /\ (forall ws,
        workflows.filter_statuses statuses ws
        = match statuses with
          | None => ws
          | Some wanted => filter (fun w => wf_status w ∈ wanted) ws
          end).
Proof.
  intros statuses. subst statuses.
  split; [|split; [|split; [|split]]].
  - destruct r, a, f, s; vm_compute; eauto.
  - by destruct r, a, f, s.
  - by destruct r, a, f, s.
  - intros. by destruct r, a, f, s.
  - intros ws. by destruct r, a, f, s.
Qed.

(** ** Batch selection in the pipeline *)

(** The query sent to the client by [get_workflows]. *)
Lemma get_workflows_batched name_key group_key cromwell now hours name group
    uuid wname n mins r a f s bound :
  workflows.submission_bound now hours = Ok bound ->
  workflows.get_workflows name_key group_key cromwell now hours name group
    uuid wname (Some n) mins r a f s
  = (ws ← workflows.select_batch
            (py_sorted wf_submission
               (api.get_workflows_query cromwell
                  {| api.includeSubworkflows := false;
                     api.labels :=
                       workflows.label_filters name_key group_key name group;
                     api.ids := [uuid];
                     api.names := [wname];
                     api.submission := bound |}))
            n mins;
     mret (workflows.filter_statuses (workflows.opt_in_statuses r a f s) ws)).
Proof. intros Hb. unfold workflows.get_workflows. by rewrite Hb. Qed.

(** C1 (what the code does on the empty input): when the client answers
    with no workflow and a batch selector is present, [max] is evaluated on
    the empty list of batch numbers and the query raises [ValueError]; no
    empty sequence is returned. *)
Theorem C1_empty_input_raises name_key group_key now n mins r a f s :
  workflows.get_workflows name_key group_key (samples.client []) now
    None None None None None (Some n) mins r a f s
  = Raise ValueError
  /\ status.selected_workflows name_key group_key (samples.client []) now
       (status.mkArgs r a f s None None None None None (Some n) mins)
     = Raise ValueError
  /\ workflows.select_batch [] n mins = Raise ValueError
  /\ py_max (omap wf_batch (batch.batch_workflows [] mins)) = Raise ValueError.
Proof. repeat split. Qed.

(** C2: with a batch selector and a status set both present, the query
    clusters the whole submission-sorted candidate set, picks the target
    batch there, and filters by status only inside that batch. *)
Theorem C2_batch_before_status name_key group_key cromwell now hours name
    group uuid wname n mins r a f s bound :
  r || a || f || s = true ->
  workflows.submission_bound now hours = Ok bound ->
  let candidates :=
    api.get_workflows_query cromwell
      {| api.includeSubworkflows := false;
         api.labels := workflows.label_filters name_key group_key name group;
         api.ids := [uuid];
         api.names := [wname];
         api.submission := bound |} in
  workflows.get_workflows name_key group_key cromwell now hours name group
    uuid wname (Some n) mins r a f s
  = batch_then_status candidates n mins (flagged_statuses r a f s)
  /\ status.selected_workflows name_key group_key cromwell now
       (status.mkArgs r a f s name group hours uuid wname (Some n) mins)
     = batch_then_status candidates n mins (flagged_statuses r a f s).
Proof.
  intros Hflags Hb candidates.
  rewrite selected_workflows_get_workflows. cbn [status.submission_time
    status.job_name status.job_group status.workflow_id status.workflow_name
    status.batch_number_ago status.batch_interval_mins
    status.show_running_statuses status.show_aborted_statuses
    status.show_failed_statuses status.show_succeeded_statuses].
  rewrite (get_workflows_batched _ _ _ _ _ _ _ _ _ _ _ _ _ _ _ bound Hb).
  fold candidates. rewrite select_batch_eq. unfold batch_then_status.
  destruct (py_max _) as [m|e]; [|done]. simpl.
  by rewrite filter_statuses_flagged.
Qed.

(** Filtering by status first gives another answer: the two surviving
    records of [samples.drifting] are then eight minutes apart and fall into
    two batches. *)
Lemma status_first_differs :
  batch_then_status samples.drifting 0 5 ["Succeeded"]
  <> status_then_batch samples.drifting 0 5 ["Succeeded"].
Proof. vm_compute. discriminate. Qed.

(** C5: on a non-empty answer, batch 0 ago is the batch of the latest
    submission: the last record after sorting has the largest submission
    time and the largest batch number, and the query returns the records
    carrying that number, the latest record among them. *)
Theorem C5_latest_batch name_key group_key cromwell now hours name group
    uuid wname mins bound :
  workflows.submission_bound now hours = Ok bound ->
  let candidates :=
    api.get_workflows_query cromwell
      {| api.includeSubworkflows := false;
         api.labels := workflows.label_filters name_key group_key name group;
         api.ids := [uuid];
         api.names := [wname];
         api.submission := bound |} in
  let clustered :=
    batch.batch_workflows (py_sorted wf_submission candidates) mins in
  candidates <> [] ->
  exists latest k,
    last clustered = Some latest
    /\ (forall w, w ∈ candidates -> wf_submission w <= wf_submission latest)
    /\ wf_batch latest = Some k
    /\ py_max (omap wf_batch clustered) = Ok k
    /\ workflows.get_workflows name_key group_key cromwell now hours name
         group uuid wname (Some 0) mins false false false false
       = Ok (batch_members k clustered)
    /\ latest ∈ batch_members k clustered.
Proof.
  intros Hb candidates bs Hne.
  assert (py_sorted wf_submission candidates <> []) as Hne'.
  { intros H. by apply py_sorted_nil_inv in H. }
  destruct (batch_workflows_last _ mins Hne') as (z & k & Hz & Hk & Hmax & _).
  fold bs in Hz, Hmax.
  exists z, k. split; [done|]. split; [|split; [done|split; [done|split]]].
  - intros w Hw.
    pose proof (walk_annotates (mins * 60000) 0 None
                  (py_sorted wf_submission candidates)) as Hann.
    apply Forall2_last in Hann. fold (batch.batch_workflows
      (py_sorted wf_submission candidates) mins) in Hann. fold bs in Hann.
    rewrite Hz in Hann. inversion Hann as [y ? [j Hy] Hlast|]; subst.
    change (wf_submission (batch.set_batch y j)) with (wf_submission y).
    eapply (sorted_last_max wf_submission); [apply py_sorted_sorted|done|].
    by rewrite py_sorted_Permutation.
  - rewrite (get_workflows_batched _ _ _ _ _ _ _ _ _ _ _ _ _ _ _ bound Hb).
    fold candidates. rewrite select_batch_eq. fold bs. rewrite Hmax. simpl.
    by rewrite Z.sub_0_r.
  - apply list_elem_of_filter. split; [done|]. by eapply last_Some_elem_of.
Qed.

(** C6: on a non-empty answer, asking for a batch further back than the
    number of batches minus one returns the empty list, with or without a
    status set, and raises nothing. *)
Theorem C6_overshoot_is_empty name_key group_key cromwell now hours name
    group uuid wname n mins r a f s bound :
  workflows.submission_bound now hours = Ok bound ->
  let candidates :=
    api.get_workflows_query cromwell
      {| api.includeSubworkflows := false;
         api.labels := workflows.label_filters name_key group_key name group;
         api.ids := [uuid];
         api.names := [wname];
         api.submission := bound |} in
  let clustered :=
    batch.batch_workflows (py_sorted wf_submission candidates) mins in
  candidates <> [] ->
  Z.of_nat (batch_count clustered) - 1 < n ->
  workflows.get_workflows name_key group_key cromwell now hours name group
    uuid wname (Some n) mins r a f s
  = Ok []
  /\ status.selected_workflows name_key group_key cromwell now
       (status.mkArgs r a f s name group hours uuid wname (Some n) mins)
     = Ok [].
Proof.
  intros Hb candidates bs Hne Hn.
  rewrite selected_workflows_get_workflows. cbn [status.submission_time
    status.job_name status.job_group status.workflow_id status.workflow_name
    status.batch_number_ago status.batch_interval_mins
    status.show_running_statuses status.show_aborted_statuses
    status.show_failed_statuses status.show_succeeded_statuses].
  assert (py_sorted wf_submission candidates <> []) as Hne'.
  { intros H. by apply py_sorted_nil_inv in H. }
  destruct (batch_workflows_last _ mins Hne') as (z & k & Hz & Hk & Hmax & Hcnt).
  fold bs in Hz, Hmax, Hcnt.
  rewrite (get_workflows_batched _ _ _ _ _ _ _ _ _ _ _ _ _ _ _ bound Hb).
  fold candidates. rewrite select_batch_eq. fold bs. rewrite Hmax. simpl.
  assert (batch_members (k - n) bs = []) as ->.
  { destruct bs as [|b0 bs'] eqn:Hbs; [done|].
    eapply (clustered_members_below (mins * 60000) b0 bs' 0).
    - rewrite <- Hbs. apply batch_workflows_clustered.
    - eapply (batch_workflows_head (py_sorted wf_submission candidates) mins).
      fold bs. by rewrite Hbs.
    - lia. }
  by rewrite filter_statuses_nil.
Qed.

(** ** The clusterer's batches *)

Lemma batch_numbers_range ws mins i :
  i ∈ omap wf_batch (batch.batch_workflows ws mins) ->
  0 <= i < Z.of_nat (batch_count (batch.batch_workflows ws mins)).
Proof.
  intros Hi.
  assert (ws <> []) as Hne by (intros ->; by apply elem_of_nil in Hi).
  destruct (batch_workflows_last ws mins Hne) as (z & k & Hz & Hk & Hmax & Hcnt).
  pose proof (batch_workflows_clustered ws mins) as Hc.
  split.
  - destruct (batch.batch_workflows ws mins) as [|b0 bs] eqn:Hbs;
      [by apply elem_of_nil in Hi|].
    eapply (clustered_numbers_ge _ b0 bs 0); [done| |done].
    eapply (batch_workflows_head ws mins). by rewrite Hbs.
  - pose proof (py_max_ge _ _ _ Hmax Hi). lia.
Qed.

(** C4: the batches of the clusterer.  The clustered sequence is the input
    with a batch number on every record; inside a batch consecutive records
    are closer than the threshold; the last record of a batch and the first
    of the next are at least the threshold apart; and the batches, none of
    them empty, laid end to end are the whole sequence, every record lying in
    exactly one of them. *)
Theorem C4_batches_partition (workflows : list Workflow) (mins : Z) :
  let clustered := batch.batch_workflows workflows mins in
  let threshold := mins * 60000 in
  Forall2 annotates workflows clustered
  /\ (forall k,
        Sorted (fun a b => gap a b < threshold) (batch_members k clustered))
  /\ (forall k a b,
        last (batch_members k clustered) = Some a ->
        head (batch_members (k + 1) clustered) = Some b ->
        threshold <= gap a b)
  /\ concat (batches clustered) = clustered
  /\ Forall (fun members => members <> []) (batches clustered)
  /\ (forall w, w ∈ clustered ->
        exists k, 0 <= k < Z.of_nat (batch_count clustered)
          /\ w ∈ batch_members k clustered
          /\ forall j, w ∈ batch_members j clustered -> j = k).
Proof.
  intros bs threshold.
  pose proof (batch_workflows_clustered workflows mins) as Hc.
  fold bs threshold in Hc.
  split; [apply walk_annotates|].
  split; [intros k; by apply clustered_within|].
  split; [intros k a b; by apply clustered_boundary|].
  split; [|split].
  - apply (clustered_concat threshold); [done|].
    intros i Hi. apply batch_numbers_range in Hi. fold bs in Hi. lia.
  - unfold batches. apply Forall_fmap, Forall_forall. intros k Hk. simpl.
    apply elem_of_seqZ in Hk.
    destruct workflows as [|w0 ws'] eqn:Hws.
    { change (batch_count bs) with 0%nat in Hk. lia. }
    destruct (batch_workflows_last (w0 :: ws') mins) as (z & m & Hz & Hm & _ & Hcnt);
      [done|].
    destruct (head bs) as [a|] eqn:Ha; [|done].
    eapply (clustered_occurs threshold bs Hc a z 0 m); try done.
    + by eapply (batch_workflows_head (w0 :: ws') mins).
    + fold bs in Hcnt. lia.
  - intros w Hw.
    pose proof (clustered_all_Some _ _ Hc) as Hall.
    rewrite Forall_forall in Hall. destruct (Hall w Hw) as [k Hk].
    exists k. split; [|split].
    + apply batch_numbers_range, list_elem_of_omap. eauto.
    + by apply list_elem_of_filter.
    + intros j Hj. apply list_elem_of_filter in Hj as [Hj _]. congruence.
Qed.

(** ** The five-record example *)

Lemma five_clustered T :
  batch.batch_workflows (py_sorted wf_submission (samples.five T)) 5
  = ((fun w => batch.set_batch w 0) <$> take 3 (samples.five T))
    ++ ((fun w => batch.set_batch w 1) <$> drop 3 (samples.five T)).
Proof.
  unfold samples.five, samples.workflow, samples.minute, batch.batch_workflows.
  cbn [py_sorted insert_by wf_submission].
  repeat match goal with
  | |- context [?x <=? ?y] =>
      first [ rewrite (Zle_imp_le_bool x y) by lia
            | rewrite (proj2 (Z.leb_gt x y)) by lia ];
      cbn [py_sorted insert_by wf_submission]
  end.
  cbn [batch.walk wf_submission].
  repeat match goal with
  | |- context [?x <=? ?y] =>
      first [ rewrite (Zle_imp_le_bool x y) by lia
            | rewrite (proj2 (Z.leb_gt x y)) by lia ];
      cbn [batch.walk wf_submission]
  end.
  reflexivity.
Qed.

(** C7: five submissions at T, T+2m, T+3m, T+10m and T+11m with the
    five-minute threshold get the batch numbers 0, 0, 0, 1, 1; batch 0 ago is
    the last two records and batch 1 ago the first three. *)
Theorem C7_five_records name_key group_key now T :
  let answer := samples.client (samples.five T) in
  wf_batch <$> batch.batch_workflows (samples.five T) 5
  = [Some 0; Some 0; Some 0; Some 1; Some 1]
  /\ workflows.get_workflows name_key group_key answer now
       None None None None None (Some 0) 5 false false false false
     = Ok ((fun w => batch.set_batch w 1) <$> drop 3 (samples.five T))
  /\ workflows.get_workflows name_key group_key answer now
       None None None None None (Some 1) 5 false false false false
     = Ok ((fun w => batch.set_batch w 0) <$> take 3 (samples.five T)).
Proof.
  intros answer. split; [|split].
  - unfold samples.five, samples.workflow, samples.minute,
      batch.batch_workflows.
    cbn [batch.walk wf_submission].
    repeat match goal with
    | |- context [?x <=? ?y] =>
        first [ rewrite (Zle_imp_le_bool x y) by lia
              | rewrite (proj2 (Z.leb_gt x y)) by lia ];
        cbn [batch.walk wf_submission]
    end.
    reflexivity.
  - rewrite (get_workflows_batched _ _ _ now None _ _ _ _ _ _ _ _ _ _ None)
      by done.
    rewrite select_batch_eq. subst answer. cbn [samples.client
      api.get_workflows_query]. rewrite five_clustered. reflexivity.
  - rewrite (get_workflows_batched _ _ _ now None _ _ _ _ _ _ _ _ _ _ None)
      by done.
    rewrite select_batch_eq. subst answer. cbn [samples.client
      api.get_workflows_query]. rewrite five_clustered. reflexivity.
Qed.

(** ** The time window *)

Lemma append_empty_r (s : string) : s +:+ "" = s.
Proof.
  induction s as [|c s IH]; [done|].
  change (String c (s +:+ "") = String c s). by rewrite IH.
Qed.

Lemma length_append (s1 s2 : string) :
  String.length (s1 +:+ s2) = (String.length s1 + String.length s2)%nat.
Proof.
  induction s1 as [|c s1 IH]; [done|].
  change (S (String.length (s1 +:+ s2))
          = S (String.length s1 + String.length s2)).
  by rewrite IH.
Qed.

Lemma length_zpad w n : String.length (datetime.zpad w n) = w.
Proof.
  revert n. induction w as [|w IH]; intros n; [done|].
  change (datetime.zpad (S w) n)
    with (datetime.zpad w (n / 10) +:+ String (datetime.digit n) "").
  rewrite length_append, IH. simpl. lia.
Qed.

Lemma length_iso_seconds t : String.length (iso_seconds t) = 19%nat.
Proof.
  unfold iso_seconds. destruct (datetime.ord2ymd _) as [[y m] d].
  rewrite !length_append, !length_zpad. reflexivity.
Qed.

(** Without a fraction, [isoformat] prints the date and the time of day. *)
Lemma isoformat_whole_seconds t :
  datetime.isoformat (whole_seconds t) = iso_seconds (whole_seconds t).
Proof.
  unfold datetime.isoformat, iso_seconds.
  destruct (datetime.ord2ymd _) as [[y m] d].
  replace (datetime.microsecond (whole_seconds t)) with 0.
  - rewrite Z.eqb_refl. by rewrite append_empty_r.
  - unfold datetime.microsecond, whole_seconds. by rewrite Z.mod_mul.
Qed.

Lemma replace_microsecond_0_whole t :
  datetime.replace_microsecond_0 t = whole_seconds t.
Proof.
  unfold datetime.replace_microsecond_0, whole_seconds.
  rewrite (Z.mod_eq t datetime.US_PER_SECOND) by done. lia.
Qed.

(** C8, as stated, fails for a window that reaches before the first
    representable datetime: a hundred million hours before 2020 the
    subtraction raises [OverflowError], so no bound is produced. *)
Lemma C8_far_window_raises :
  datetime.valid samples.new_year_2020
  /\ 0 < 100000000
  /\ workflows.submission_bound samples.new_year_2020 (Some 100000000)
     = Raise OverflowError
  /\ workflows.submission_bound samples.new_year_2020 (Some 100000000)
     <> Ok (Some (window_bound samples.new_year_2020 100000000)).
Proof.
  split; [|split; [|split]].
  - by vm_compute.
  - done.
  - by vm_compute.
  - by vm_compute.
Qed.

(** C8 (amended): with no hours, zero or a negative number no bound is
    computed; with a positive number of hours that does not reach before
    0001-01-01T00:00:00 the bound is that many hours before now, cut to whole
    seconds, printed as YYYY-MM-DDTHH:MM:SS and a trailing Z (twenty
    characters); a window reaching further back raises [OverflowError].
    [call] computes the same bound from [args]. *)
Theorem C8_submission_bound now (hours : option Z) :
  datetime.valid now ->
  match hours with
  | None => workflows.submission_bound now hours = Ok None
  | Some h =>
      if h <=? 0 then workflows.submission_bound now hours = Ok None
      else if h * datetime.US_PER_HOUR <=? now then
        workflows.submission_bound now hours = Ok (Some (window_bound now h))
        /\ String.length (window_bound now h) = 20%nat
      else workflows.submission_bound now hours = Raise OverflowError
  end.
Proof.
  intros [Hlo Hhi]. destruct hours as [h|]; [|done].
  unfold workflows.submission_bound.
  destruct (Z.leb_spec h 0) as [Hh|Hh].
  { by rewrite (proj2 (Z.ltb_ge 0 h)). }
  rewrite (proj2 (Z.ltb_lt 0 h)) by done.
  unfold datetime.timedelta_hours, datetime.sub.
  unfold datetime.max, datetime.MAXORDINAL, datetime.US_PER_DAY,
    datetime.US_PER_HOUR, datetime.US_PER_SECOND in *.
  destruct (Z.leb_spec (h * (3600 * 1000000)) now) as [Hw|Hw].
  - rewrite (proj2 (Z.ltb_ge 999999999 _)).
    2:{ rewrite Z.abs_eq by (apply Z.div_pos; lia).
        apply Z.div_le_upper_bound; lia. }
    simpl. rewrite (proj2 (Z.leb_le 0 _)) by lia.
    rewrite (proj2 (Z.leb_le _ _)) by lia. simpl.
    rewrite replace_microsecond_0_whole, isoformat_whole_seconds.
    split; [done|].
    unfold window_bound. rewrite length_append, length_iso_seconds. done.
  - destruct (_ <? _); [done|]. simpl.
    rewrite (proj2 (Z.leb_gt 0 _)) by lia. done.
Qed.

(** ** The summary *)

Section summary.
Context (get_oliver_group : Metadata -> option string).

Local Abbreviation group_label := (status.group_label get_oliver_group).

Lemma row_lookup (agg : gmap string (gmap string nat)) g s :
  default ∅ (agg !! g) !! s = cell agg g s.
Proof. unfold cell. destruct (agg !! g); [done|]. apply lookup_empty. Qed.

Lemma holds_increment agg f g0 s0 :
  holds agg f ->
  holds (status.increment g0 s0 agg)
    (fun g s => (f g s + if decide (g = g0 /\ s = s0) then 1 else 0)%nat).
Proof.
  intros Hf g s. unfold status.increment, cell.
  destruct (decide (g = g0)) as [->|Hg].
  - rewrite lookup_insert_eq. simpl.
    destruct (decide (s = s0)) as [->|Hs].
    + rewrite lookup_insert_eq, row_lookup, Hf.
      rewrite (decide_True (P := g0 = g0 /\ s0 = s0)) by done.
      destruct (decide (f g0 s0 = 0%nat)) as [Hz|Hz]; simpl;
        case_decide; try lia; f_equal; lia.
    + rewrite lookup_insert_ne by done. rewrite row_lookup, Hf.
      rewrite (decide_False (P := _ /\ _)) by tauto.
      by rewrite Nat.add_0_r.
  - rewrite lookup_insert_ne by done. fold (cell agg g s). rewrite Hf.
    rewrite (decide_False (P := _ /\ _)) by tauto.
    by rewrite Nat.add_0_r.
Qed.

Lemma cell_count_cons w ws metadatas g s :
  cell_count get_oliver_group (w :: ws) metadatas g s
  = ((if decide (group_label <$> metadatas !! wf_id w = Some g
                 /\ md_status <$> metadatas !! wf_id w = Some s)
      then 1 else 0)
     + cell_count get_oliver_group ws metadatas g s)%nat.
Proof. unfold cell_count. rewrite filter_cons. by case_decide. Qed.

Lemma aggregate_holds ws metadatas agg f :
  Forall (fun w => is_Some (metadatas !! wf_id w)) ws ->
  holds agg f ->
  exists agg',
    status.aggregate get_oliver_group agg ws metadatas = Ok agg'
    /\ holds agg'
         (fun g s => (f g s + cell_count get_oliver_group ws metadatas g s)%nat).
Proof.
  intros Hall. revert agg f.
  induction Hall as [|w ws [m Hm] _ IH]; intros agg f Hf.
  - exists agg. split; [done|]. intros g s.
    unfold cell_count. simpl. by rewrite Nat.add_0_r.
  - simpl. rewrite Hm. simpl.
    destruct (IH _ _ (holds_increment agg f (group_label m) (md_status m) Hf))
      as (agg' & Hagg & Hholds).
    exists agg'. split; [done|]. intros g s. rewrite Hholds.
    rewrite cell_count_cons, Hm. simpl.
    assert ((f g s + (if decide (g = group_label m /\ s = md_status m)
                      then 1 else 0)
             + cell_count get_oliver_group ws metadatas g s)%nat
            = (f g s
               + ((if decide (Some (group_label m) = Some g
                              /\ Some (md_status m) = Some s)
                   then 1 else 0)
                  + cell_count get_oliver_group ws metadatas g s))%nat) as ->;
      [|done].
    destruct (decide (g = group_label m /\ s = md_status m)) as [[-> ->]|Hn].
    + rewrite decide_True by done. lia.
    + rewrite decide_False; [lia|]. intros [[= ?] [= ?]]. naive_solver.
Qed.

End summary.

(** C9: for workflows whose ids all have metadata, the summary is the
    mapping job group, status to count: a cell is present exactly when some
    workflow falls under it and then holds their number, the group being the
    extracted job-group label, or "<not set>" when there is none (or it is
    empty).  Two workflows of group "alpha", one Running and one Succeeded,
    give {"alpha": {"Running": 1, "Succeeded": 1}}. *)
Theorem C9_summary_counts (get_oliver_group : Metadata -> option string)
    (workflows : list Workflow) (metadatas : gmap string Metadata) :
  Forall (fun w => is_Some (metadatas !! wf_id w)) workflows ->
  (exists agg,
     status.print_workflow_summary get_oliver_group workflows metadatas = Ok agg
     /\ forall group status,
          cell agg group status
          = let n := cell_count get_oliver_group workflows metadatas
                       group status in
            if decide (n = 0%nat) then None else Some n)
  /\ (forall m,
        status.group_label get_oliver_group m
        = match get_oliver_group m with
          | None | Some "" => "<not set>"
          | Some label => label
          end)
  /\ (forall w1 w2 m1 m2,
        wf_id w1 <> wf_id w2 ->
        get_oliver_group m1 = Some "alpha" ->
        get_oliver_group m2 = Some "alpha" ->
        md_status m1 = "Running" ->
        md_status m2 = "Succeeded" ->
        status.print_workflow_summary get_oliver_group [w1; w2]
          (<[wf_id w1 := m1]> (<[wf_id w2 := m2]> ∅))
        = Ok {[ "alpha" := {[ "Running" := 1%nat; "Succeeded" := 1%nat ]} ]}).
Proof.
  intros Hall. split; [|split].
  - destruct (aggregate_holds get_oliver_group workflows metadatas ∅
                (fun _ _ => 0%nat) Hall) as (agg & Hagg & Hholds).
    { intros g s. unfold cell. by rewrite lookup_empty. }
    exists agg. split; [done|]. intros g s. by rewrite Hholds.
  - intros m. unfold status.group_label.
    by destruct (get_oliver_group m) as [[|c label]|].
  - intros w1 w2 m1 m2 Hne H1 H2 Hs1 Hs2.
    unfold status.print_workflow_summary. simpl.
    rewrite lookup_insert_eq. simpl.
    rewrite lookup_insert_ne, lookup_insert_eq by done. simpl.
    unfold status.group_label. rewrite H1, H2, Hs1, Hs2. simpl.
    reflexivity.
Qed.

(** ** The theorems at sample inputs *)

(** The pipeline order on [samples.drifting] with only Succeeded opted
    into: one batch of three, of which the two succeeded records remain. *)
Lemma C2_drifting_succeeded :
  false || false || false || true = true
  /\ workflows.submission_bound samples.new_year_2020 (Some 24)
     = Ok (Some "2019-12-31T17:55:06Z")
  /\ workflows.get_workflows samples.name_key samples.group_key
       (samples.client samples.drifting) samples.new_year_2020 (Some 24)
       None None None None (Some 0) 5 false false false true
     = Ok [batch.set_batch (samples.workflow "d0" "Succeeded" 0) 0;
           batch.set_batch
             (samples.workflow "d2" "Succeeded" (8 * samples.minute)) 0].
Proof.
  assert (workflows.submission_bound samples.new_year_2020 (Some 24)
          = Ok (Some "2019-12-31T17:55:06Z")) as Hb by (vm_compute; reflexivity).
  split; [reflexivity|]. split; [exact Hb|].
  rewrite (proj1 (C2_batch_before_status samples.name_key samples.group_key
                    (samples.client samples.drifting) samples.new_year_2020
                    (Some 24) None None None None 0 5 false false false true
                    (Some "2019-12-31T17:55:06Z") eq_refl Hb)).
  vm_compute. reflexivity.
Defined.

(** The latest batch of the five-record sample. *)
Lemma C5_five_latest :
  exists latest k,
    last (batch.batch_workflows
            (py_sorted wf_submission (samples.five 0)) 5) = Some latest
    /\ (forall w, w ∈ samples.five 0 ->
          wf_submission w <= wf_submission latest)
    /\ wf_batch latest = Some k
    /\ py_max (omap wf_batch
                 (batch.batch_workflows
                    (py_sorted wf_submission (samples.five 0)) 5)) = Ok k
    /\ workflows.get_workflows samples.name_key samples.group_key
         (samples.client (samples.five 0)) samples.new_year_2020 None
         None None None None (Some 0) 5 false false false false
       = Ok (batch_members k
               (batch.batch_workflows
                  (py_sorted wf_submission (samples.five 0)) 5))
    /\ latest ∈ batch_members k
                  (batch.batch_workflows
                     (py_sorted wf_submission (samples.five 0)) 5).
Proof.
  apply (C5_latest_batch samples.name_key samples.group_key
           (samples.client (samples.five 0)) samples.new_year_2020 None
           None None None None 5 None).
  - reflexivity.
  - discriminate.
Defined.

(** The five-record sample has two batches; two batches ago is empty. *)
Lemma C6_five_overshoot :
  samples.five 0 <> []
  /\ Z.of_nat (batch_count (batch.batch_workflows
                              (py_sorted wf_submission (samples.five 0)) 5))
     - 1 < 2
  /\ workflows.get_workflows samples.name_key samples.group_key
       (samples.client (samples.five 0)) samples.new_year_2020 None
       None None None None (Some 2) 5 false false false false
     = Ok []
  /\ status.selected_workflows samples.name_key samples.group_key
       (samples.client (samples.five 0)) samples.new_year_2020
       (status.mkArgs false false false false None None None None None
          (Some 2) 5)
     = Ok [].
Proof.
  assert (samples.five 0 <> []) as Hne by discriminate.
  assert (Z.of_nat (batch_count (batch.batch_workflows
                                   (py_sorted wf_submission (samples.five 0)) 5))
          - 1 < 2) as Hn by (vm_compute; reflexivity).
  split; [exact Hne|]. split; [exact Hn|].
  exact (C6_overshoot_is_empty samples.name_key samples.group_key
           (samples.client (samples.five 0)) samples.new_year_2020 None
           None None None None 2 5 false false false false None
           eq_refl Hne Hn).
Defined.

(** Two hours before 2020-01-01T17:55:06.123456. *)
Lemma C8_two_hours_back :
  datetime.valid samples.new_year_2020
  /\ (workflows.submission_bound samples.new_year_2020 (Some 2)
      = Ok (Some (window_bound samples.new_year_2020 2))
      /\ String.length (window_bound samples.new_year_2020 2) = 20%nat)
  /\ window_bound samples.new_year_2020 2 = "2020-01-01T15:55:06Z".
Proof.
  assert (datetime.valid samples.new_year_2020) as Hv
    by (vm_compute; split; discriminate).
  split; [exact Hv|]. split.
  - exact (C8_submission_bound samples.new_year_2020 (Some 2) Hv).
  - vm_compute. reflexivity.
Defined.

(** The summary of the two alpha workflows; the statuses counted are those
    of the metadata. *)
Lemma C9_alpha_summary :
  Forall (fun w => is_Some (samples.alpha_metadatas !! wf_id w))
    samples.alpha_workflows
  /\ status.print_workflow_summary samples.get_group samples.alpha_workflows
       samples.alpha_metadatas
     = Ok {[ "alpha" := {[ "Running" := 1%nat; "Succeeded" := 1%nat ]} ]}.
Proof.
  assert (Forall (fun w => is_Some (samples.alpha_metadatas !! wf_id w))
            samples.alpha_workflows) as Hall.
  { repeat constructor; eexists; vm_compute; reflexivity. }
  split; [exact Hall|].
  apply (proj2 (proj2 (C9_summary_counts samples.get_group
                         samples.alpha_workflows samples.alpha_metadatas Hall))
           (samples.workflow "a0" "Running" 0)
           (samples.workflow "a1" "Running" samples.minute)
           (samples.grouped (Some "alpha") "Running")
           (samples.grouped (Some "alpha") "Succeeded")).
  - discriminate.
  - vm_compute. reflexivity.
  - vm_compute. reflexivity.
  - reflexivity.
  - reflexivity.
Defined.

(** * Further properties of the code *)

(** ** What the query returns and when it fails *)

Lemma get_workflows_eq name_key group_key cromwell now hours name group uuid
    wname ago mins r a f s :
  workflows.get_workflows name_key group_key cromwell now hours name group
    uuid wname ago mins r a f s
  = (bound ← workflows.submission_bound now hours;
     ws ← match ago with
          | Some n =>
              workflows.select_batch
                (py_sorted wf_submission
                   (listing name_key group_key cromwell name group uuid wname
                      bound))
                n mins
          | None =>
              Ok (py_sorted wf_submission
                    (listing name_key group_key cromwell name group uuid wname
                       bound))
          end;
     mret (workflows.filter_statuses (workflows.opt_in_statuses r a f s) ws)).
Proof. reflexivity. Qed.


Lemma filter_all {A : Type} (P : A -> Prop) `{!forall x, Decision (P x)}
    (l : list A) :
  Forall P l -> filter P l = l.
Proof.
  induction 1 as [|x l Hx _ IH]; [done|].
  by rewrite filter_cons_True, IH.
Qed.

(** The status step keeps the records the flags ask for. *)
Lemma filter_statuses_wanted r a f s ws :
  workflows.filter_statuses (workflows.opt_in_statuses r a f s) ws
  = filter (wanted r a f s) ws.
Proof.
  destruct (r || a || f || s) eqn:Hflags.
  - rewrite filter_statuses_flagged by done.
    apply list_filter_iff. intros w. unfold wanted. rewrite Hflags.
    split; [by right|]. by intros [|].
  - assert (workflows.opt_in_statuses r a f s = None) as ->.
    { by rewrite opt_in_statuses_flagged, Hflags. }
    symmetry. apply filter_all, Forall_forall. intros w _.
    left. done.
Qed.










Lemma batch_members_none k l :
  Forall (fun w => wf_batch w <> Some k) l -> batch_members k l = [].
Proof.
  induction 1 as [|w l Hw _ IH]; [done|].
  by rewrite batch_members_cons, decide_False, IH.
Qed.

(** The target batch of a selection on a non-empty listing. *)
Lemma get_workflows_target name_key group_key cromwell now hours name group
    uuid wname n mins r a f s bound :
  workflows.submission_bound now hours = Ok bound ->
  listing name_key group_key cromwell name group uuid wname bound <> [] ->
  let clustered :=
    batch.batch_workflows
      (py_sorted wf_submission
         (listing name_key group_key cromwell name group uuid wname bound))
      mins in
  exists z k,
    last clustered = Some z /\ wf_batch z = Some k
    /\ py_max (omap wf_batch clustered) = Ok k
    /\ Z.of_nat (batch_count clustered) = k + 1
    /\ workflows.get_workflows name_key group_key cromwell now hours name
         group uuid wname (Some n) mins r a f s
       = Ok (filter (wanted r a f s) (batch_members (k - n) clustered)).
Proof.
  intros Hb Hne bs.
  assert (py_sorted wf_submission
            (listing name_key group_key cromwell name group uuid wname bound)
          <> []) as Hne'.
  { intros H. by apply py_sorted_nil_inv in H. }
  destruct (batch_workflows_last _ mins Hne') as (z & k & Hz & Hk & Hmax & Hcnt).
  fold bs in Hz, Hmax, Hcnt. exists z, k. repeat (split; [done|]).
  rewrite get_workflows_eq, Hb. simpl. rewrite select_batch_eq. fold bs.
  rewrite Hmax. simpl. by rewrite filter_statuses_wanted.
Qed.

(** X4: a negative [batch_number_ago] selects nothing: on a non-empty
    listing the target number lies above the largest batch number in use, so
    the query returns the empty list (whatever numbers the clusterer gave). *)
Theorem X4_negative_batch_is_empty name_key group_key cromwell now hours name
    group uuid wname n mins r a f s bound :
  workflows.submission_bound now hours = Ok bound ->
  listing name_key group_key cromwell name group uuid wname bound <> [] ->
  n < 0 ->
  workflows.get_workflows name_key group_key cromwell now hours name group
    uuid wname (Some n) mins r a f s
  = Ok [].
Proof.
  intros Hb Hne Hn.
  destruct (get_workflows_target name_key group_key cromwell now hours name
              group uuid wname n mins r a f s bound Hb Hne)
    as (z & k & _ & _ & Hmax & _ & ->).
  rewrite batch_members_none; [done|].
  apply Forall_forall. intros w Hw Hwk.
  assert (k - n ∈ omap wf_batch
            (batch.batch_workflows
               (py_sorted wf_submission
                  (listing name_key group_key cromwell name group uuid wname
                     bound)) mins)) as Hin.
  { apply list_elem_of_omap. eauto. }
  pose proof (py_max_ge _ _ _ Hmax Hin). lia.
Qed.

(** X5: with no status flag, batch [n] ago of a non-empty listing is empty
    exactly when [n] is negative or at least the number of batches; the
    records returned all carry the batch number count - 1 - n. *)
Theorem X5_batch_empty_iff name_key group_key cromwell now hours name group
    uuid wname n mins bound :
  workflows.submission_bound now hours = Ok bound ->
  listing name_key group_key cromwell name group uuid wname bound <> [] ->
  let clustered :=
    batch.batch_workflows
      (py_sorted wf_submission
         (listing name_key group_key cromwell name group uuid wname bound))
      mins in
  exists res,
    workflows.get_workflows name_key group_key cromwell now hours name group
      uuid wname (Some n) mins false false false false = Ok res
    /\ (res = [] <-> n < 0 \/ Z.of_nat (batch_count clustered) <= n)
    /\ Forall (fun w => wf_batch w
                        = Some (Z.of_nat (batch_count clustered) - 1 - n)) res.
Proof.
  intros Hb Hne bs.
  destruct (get_workflows_target name_key group_key cromwell now hours name
              group uuid wname n mins false false false false bound Hb Hne)
    as (z & k & Hz & Hk & Hmax & Hcnt & ->).
  fold bs in Hz, Hmax, Hcnt |- *.
  pose proof (batch_workflows_clustered
                (py_sorted wf_submission
                   (listing name_key group_key cromwell name group uuid wname
                      bound)) mins) as Hc.
  fold bs in Hc.
  rewrite filter_all by (apply Forall_forall; intros; by left).
  eexists. split; [done|]. split.
  - destruct (head bs) as [a|] eqn:Ha.
    2:{ apply head_None in Ha. rewrite Ha in Hz. done. }
    assert (wf_batch a = Some 0) as Ha0.
    { by eapply (batch_workflows_head _ mins). }
    split.
    + intros Hnil.
      destruct (decide (n < 0)) as [|Hn0]; [by left|]. right.
      destruct (decide (k + 1 <= n)) as [|Hnk]; [lia|].
      destruct (clustered_occurs _ bs Hc a z 0 k (k - n) Ha Ha0 Hz Hk); [lia|done].
    + intros [Hn|Hn].
      * apply batch_members_none, Forall_forall. intros w Hw Hwk.
        assert (k - n ∈ omap wf_batch bs) as Hin
          by (apply list_elem_of_omap; eauto).
        pose proof (py_max_ge _ _ _ Hmax Hin). lia.
      * destruct bs as [|b0 bs'] eqn:Hbs; [done|].
        simpl in Ha. injection Ha as ->.
        eapply (clustered_members_below _ a bs' 0); [done|done|lia].
  - apply Forall_forall. intros w Hw.
    apply list_elem_of_filter in Hw as [-> _]. f_equal. lia.
Qed.

(** X6: [call] selects its workflows exactly as [get_workflows] does when
    given the values of [args]: the two copies of the pipeline agree on every
    input, errors included. *)
Theorem X6_call_selects_like_get_workflows name_key group_key cromwell now
    (args : status.Args) :
  status.selected_workflows name_key group_key cromwell now args
  = workflows.get_workflows name_key group_key cromwell now
      (status.submission_time args) (status.job_name args)
      (status.job_group args) (status.workflow_id args)
      (status.workflow_name args) (status.batch_number_ago args)
      (status.batch_interval_mins args)
      (status.show_running_statuses args) (status.show_aborted_statuses args)
      (status.show_failed_statuses args) (status.show_succeeded_statuses args)
  /\ status.get_statuses_to_query args
     = workflows.opt_in_statuses
         (status.show_running_statuses args)
         (status.show_aborted_statuses args)
         (status.show_failed_statuses args)
         (status.show_succeeded_statuses args).
Proof. split; [apply selected_workflows_get_workflows|by destruct args]. Qed.

(** ** Metadata and the summary *)

Lemma foldl_insert_metadata (meta : string -> Metadata) ws
    (acc : gmap string Metadata) i :
  foldl (fun metadatas w => <[wf_id w := meta (wf_id w)]> metadatas) acc ws !! i
  = if decide (i ∈ wf_id <$> ws) then Some (meta i) else acc !! i.
Proof.
  revert acc. induction ws as [|w ws IH]; intros acc.
  - cbn [foldl]. rewrite fmap_nil.
    case_decide as H; [by apply elem_of_nil in H|done].
  - cbn [foldl]. rewrite IH, fmap_cons.
    destruct (decide (i ∈ wf_id <$> ws)) as [Hi|Hi].
    + rewrite decide_True; [done|]. by right.
    + destruct (decide (i = wf_id w)) as [->|Hne].
      * rewrite lookup_insert_eq, decide_True; [done|]. by left.
      * rewrite lookup_insert_ne by done.
        rewrite decide_False; [done|].
        rewrite elem_of_cons. tauto.
Qed.

Lemma fetch_metadatas_lookup cromwell (workflows : list Workflow) (id : string) :
  status.fetch_metadatas cromwell workflows !! id
  = if decide (id ∈ wf_id <$> workflows)
    then Some (api.get_workflows_metadata cromwell id)
    else None.
Proof.
  unfold status.fetch_metadatas.
  rewrite (foldl_insert_metadata (api.get_workflows_metadata cromwell)).
  by rewrite lookup_empty.
Qed.

(** X7: the metadata dict built by [call] holds, for the id of every
    selected workflow, the metadata the client returns for that id, and holds
    no other key. *)
Theorem X7_fetch_metadatas cromwell (workflows : list Workflow) :
  (forall w, w ∈ workflows ->
     status.fetch_metadatas cromwell workflows !! wf_id w
     = Some (api.get_workflows_metadata cromwell (wf_id w)))
  /\ dom (status.fetch_metadatas cromwell workflows)
     = list_to_set (wf_id <$> workflows).
Proof.
  split.
  - intros w Hw. rewrite fetch_metadatas_lookup, decide_True; [done|].
    by apply list_elem_of_fmap_2.
  - apply set_eq. intros id.
    rewrite elem_of_dom, elem_of_list_to_set, fetch_metadatas_lookup.
    case_decide; split; done.
Qed.

Section summary_more.
Context (get_oliver_group : Metadata -> option string).



Lemma row_total_increment (row : gmap string nat) s :
  row_total (<[s := S (default 0%nat (row !! s))]> row) = S (row_total row).
Proof.
  unfold row_total. destruct (row !! s) as [n|] eqn:Hs; simpl.
  - rewrite <- (insert_delete_eq row).
    rewrite <- (insert_delete_id row s n) at 2 by done.
    rewrite !map_fold_insert_L;
      first [by rewrite lookup_delete_eq | intros; lia].
  - rewrite map_fold_insert_L; [lia|intros; lia|done].
Qed.

Lemma increment_total g s (agg : gmap string (gmap string nat)) :
  total (status.increment g s agg) = S (total agg).
Proof.
  unfold status.increment, total.
  destruct (agg !! g) as [row|] eqn:Hg; simpl.
  - rewrite <- (insert_delete_eq agg).
    rewrite <- (insert_delete_id agg g row) at 2 by done.
    rewrite !map_fold_insert_L; try (by rewrite lookup_delete_eq);
      try (intros; lia).
    rewrite row_total_increment. lia.
  - rewrite map_fold_insert_L; [|intros; lia|done].
    rewrite row_total_increment.
    replace (row_total ∅) with 0%nat; [lia|].
    unfold row_total. by rewrite map_fold_empty.
Qed.

Lemma aggregate_total ws metadatas agg agg' :
  status.aggregate get_oliver_group agg ws metadatas = Ok agg' ->
  total agg' = (total agg + length ws)%nat.
Proof.
  revert agg. induction ws as [|w ws IH]; intros agg; simpl.
  - intros [= <-]. lia.
  - destruct (metadatas !! wf_id w) as [m|]; simpl; [|done].
    intros H. rewrite (IH _ H), increment_total. lia.
Qed.


End summary_more.


(** X9: when the summary succeeds its counts add up to the number of
    workflows: every workflow is counted once, under one group and one
    status. *)
Theorem X9_summary_total (get_oliver_group : Metadata -> option string)
    (workflows : list Workflow) (metadatas : gmap string Metadata) agg :
  status.print_workflow_summary get_oliver_group workflows metadatas = Ok agg ->
  total agg = length workflows.
Proof.
  unfold status.print_workflow_summary. intros H.
  rewrite (aggregate_total _ _ _ _ _ H). unfold total.
  by rewrite map_fold_empty.
Qed.


(** ** The summary table *)

Section table_rows.
Context (get_oliver_group : Metadata -> option string).

Local Abbreviation label := (status.group_label get_oliver_group).

Lemma group_labels_cons w ws (metadatas : gmap string Metadata) m :
  metadatas !! wf_id w = Some m ->
  group_labels get_oliver_group (w :: ws) metadatas
  = label m :: group_labels get_oliver_group ws metadatas.
Proof. intros Hm. unfold group_labels. simpl. by rewrite Hm. Qed.

(** The ordered dict keeps the counts of the plain one, and its keys in
    the order of their first insertion. *)
Lemma table_aggregate_spec ws metadatas agg c :
  (forall g, g ∈ table.groups agg <-> is_Some (table.counts agg !! g)) ->
  status.aggregate get_oliver_group (table.counts agg) ws metadatas = Ok c ->
  exists agg',
    table.aggregate get_oliver_group agg ws metadatas = Ok agg'
    /\ table.counts agg' = c
    /\ table.groups agg'
       = table.groups agg
         ++ filter (fun g => g ∉ table.groups agg)
              (first_occurrences (group_labels get_oliver_group ws metadatas))
    /\ (forall g, g ∈ table.groups agg' <-> is_Some (table.counts agg' !! g)).
Proof.
  revert agg. induction ws as [|w ws IH]; intros agg Hinv.
  - simpl. intros [= <-]. exists agg. split; [done|]. split; [done|].
    split; [|done]. by rewrite app_nil_r.
  - cbn [status.aggregate table.aggregate].
    destruct (metadatas !! wf_id w) as [m|] eqn:Hm; [|done].
    rewrite (group_labels_cons _ _ _ _ Hm).
    cbn [mbind result_bind]. intros Hc.
    set (agg1 := table.increment (label m) (md_status m) agg).
    assert (forall g, g ∈ table.groups agg1 <-> is_Some (table.counts agg1 !! g))
      as Hinv1.
    { intros g. unfold agg1, table.increment, status.increment. simpl.
      destruct (decide (g = label m)) as [->|Hg].
      - rewrite lookup_insert_eq.
        destruct (table.counts agg !! label m) eqn:Hl.
        + split; [by eexists|]. intros _. apply Hinv. by eexists.
        + split; [by eexists|]. intros _. apply elem_of_app. right. by left.
      - rewrite lookup_insert_ne by done. rewrite <- Hinv.
        destruct (table.counts agg !! label m); [done|].
        rewrite elem_of_app, list_elem_of_singleton. tauto. }
    destruct (IH agg1 Hinv1 Hc) as (agg' & Hagg & Hcounts & Hgroups & Hinv').
    exists agg'. split; [done|]. split; [done|]. split; [|done].
    rewrite Hgroups. cbn [first_occurrences].
    set (rest := first_occurrences (group_labels get_oliver_group ws metadatas)).
    unfold agg1, table.increment. simpl.
    destruct (table.counts agg !! label m) as [row|] eqn:Hl.
    + assert (label m ∈ table.groups agg) as Hin by (apply Hinv; by eexists).
      f_equal. rewrite filter_cons_False by (intros H; by apply H).
      rewrite list_filter_filter. apply list_filter_iff.
      intros g. split; [|tauto]. intros Hg. split; [done|].
      by intros ->.
    + assert (label m ∉ table.groups agg) as Hnin.
      { intros H. apply Hinv in H as [? ?]. congruence. }
      rewrite <- app_assoc. f_equal. simpl.
      rewrite filter_cons_True by done. f_equal.
      rewrite list_filter_filter. apply list_filter_iff.
      intros g. rewrite not_elem_of_app, list_elem_of_singleton. tauto.
Qed.

Lemma first_occurrences_elem_of l x : x ∈ first_occurrences l <-> x ∈ l.
Proof.
  induction l as [|y l IH]; simpl; [done|].
  rewrite !elem_of_cons, list_elem_of_filter, IH.
  destruct (decide (x = y)); tauto.
Qed.

Lemma first_occurrences_NoDup l : NoDup (first_occurrences l).
Proof.
  induction l as [|y l IH]; simpl; [constructor|].
  constructor; [|by apply NoDup_filter].
  rewrite list_elem_of_filter. tauto.
Qed.

Lemma cell_count_pos ws (metadatas : gmap string Metadata) g st :
  cell_count get_oliver_group ws metadatas g st <> 0%nat
  <-> exists w m, w ∈ ws /\ metadatas !! wf_id w = Some m
        /\ label m = g /\ md_status m = st.
Proof.
  unfold cell_count. split.
  - intros Hn.
    destruct (filter _ ws) as [|w l] eqn:Hf; [done|].
    assert (w ∈ filter
              (fun w => label <$> metadatas !! wf_id w = Some g
                        /\ md_status <$> metadatas !! wf_id w = Some st) ws)
      as Hw by (rewrite Hf; by left).
    apply list_elem_of_filter in Hw as [[H1 H2] Hw].
    destruct (metadatas !! wf_id w) as [m|] eqn:Hm; [|done].
    simpl in H1, H2. exists w, m. repeat split; congruence.
  - intros (w & m & Hw & Hm & <- & <-) Hz.
    apply nil_length_inv in Hz.
    refine (filter_nil_not_elem_of _ _ w Hz _ Hw). by rewrite Hm.
Qed.

Lemma statuses_seen_elem_of ws (metadatas : gmap string Metadata) st :
  st ∈ statuses_seen ws metadatas
  <-> exists g, cell_count get_oliver_group ws metadatas g st <> 0%nat.
Proof.
  unfold statuses_seen. rewrite elem_of_list_to_set, list_elem_of_omap.
  split.
  - intros (w & Hw & Hst).
    destruct (metadatas !! wf_id w) as [m|] eqn:Hm; [|done].
    simpl in Hst. injection Hst as <-.
    exists (label m). apply cell_count_pos. by exists w, m.
  - intros (g & Hg). apply cell_count_pos in Hg as (w & m & Hw & Hm & _ & <-).
    exists w. split; [done|]. by rewrite Hm.
Qed.

Lemma rows_eq ws (metadatas : gmap string Metadata) :
  Forall (fun w => is_Some (metadatas !! wf_id w)) ws ->
  exists c,
    status.print_workflow_summary get_oliver_group ws metadatas = Ok c
    /\ holds c (cell_count get_oliver_group ws metadatas)
    /\ table.rows get_oliver_group ws metadatas
       = Ok (row_of c (statuses_seen ws metadatas)
               <$> first_occurrences
                     (group_labels get_oliver_group ws metadatas)).
Proof.
  intros Hall.
  destruct (aggregate_holds get_oliver_group ws metadatas ∅ (fun _ _ => 0%nat)
              Hall) as (c & Hc & Hholds).
  { intros g st. unfold cell. by rewrite lookup_empty. }
  simpl in Hholds.
  exists c. split; [done|]. split; [done|].
  destruct (table_aggregate_spec ws metadatas
              {| table.groups := []; table.counts := ∅ |} c)
    as (agg & Hagg & Hcounts & Hgroups & Hinv); [|done|].
  { intros g. simpl. rewrite lookup_empty, elem_of_nil.
    split; [done|by intros [? ?]]. }
  unfold table.rows. rewrite Hagg. simpl.
  rewrite Hcounts. simpl in Hgroups.
  rewrite filter_all in Hgroups
    by (apply Forall_forall; intros ? _; apply not_elem_of_nil).
  rewrite Hgroups. f_equal. rewrite <- list_fmap_compose.
  assert (⋃ ((fun g => dom (default ∅ (c !! g)))
             <$> first_occurrences (group_labels get_oliver_group ws metadatas))
          = statuses_seen ws metadatas) as ->; [|done].
  apply set_eq. intros st.
  rewrite elem_of_union_list, statuses_seen_elem_of. split.
  - intros (X & HX & Hst). apply list_elem_of_fmap in HX as (g & -> & Hg).
    exists g. apply elem_of_dom in Hst. rewrite row_lookup, Hholds in Hst.
    case_decide; [by destruct Hst|done].
  - intros (g & Hg).
    assert (cell c g st = Some (cell_count get_oliver_group ws metadatas g st))
      as Hcell by (rewrite Hholds; by rewrite decide_False).
    exists (dom (default ∅ (c !! g))). split.
    + apply list_elem_of_fmap. exists g. split; [done|].
      rewrite <- Hgroups. apply Hinv. rewrite Hcounts.
      unfold cell in Hcell. destruct (c !! g); [by eexists|done].
    + apply elem_of_dom. rewrite row_lookup, Hcell. by eexists.
Qed.

End table_rows.

Lemma row_of_lookup (c : gmap string (gmap string nat)) (keys : gset string)
    (g k : string) :
  row_of c keys g !! k
  = match cell c g k with
    | Some n => Some (table.Int n)
    | None =>
        if decide (k = "Group Name") then Some (table.Str g)
        else if decide (k ∈ keys) then Some (table.Int 0%nat) else None
    end.
Proof.
  unfold row_of. rewrite !lookup_union, lookup_fmap, row_lookup.
  rewrite lookup_gset_to_gmap.
  destruct (cell c g k) as [n|]; simpl.
  - by destruct ({[ "Group Name" := table.Str g ]} !! k),
      (guard (k ∈ keys);; Some (table.Int 0%nat)).
  - destruct (decide (k = "Group Name")) as [->|Hk].
    + rewrite lookup_singleton_eq. simpl.
      by destruct (guard ("Group Name" ∈ keys);; Some (table.Int 0%nat)).
    + rewrite lookup_singleton_ne by done.
      destruct (decide (k ∈ keys)) as [Hin|Hnin].
      * by rewrite option_guard_True.
      * by rewrite option_guard_False.
Qed.

(** X11: the summary table is rectangular and has one row per job group:
    when every workflow has metadata, [print_workflow_summary] builds as
    many rows as there are distinct group labels, and every row has the same
    columns, "Group Name" and one for each status found in the metadata. *)
Theorem X11_table_shape (get_oliver_group : Metadata -> option string)
    (workflows : list Workflow) (metadatas : gmap string Metadata) :
  Forall (fun w => is_Some (metadatas !! wf_id w)) workflows ->
  exists rows,
    table.rows get_oliver_group workflows metadatas = Ok rows
    /\ length rows
       = length (remove_dups (group_labels get_oliver_group workflows metadatas))
    /\ Forall (fun row : gmap string table.Cell =>
                 dom row = {[ "Group Name" ]} ∪ statuses_seen workflows metadatas)
         rows.
Proof.
  intros Hall.
  destruct (rows_eq get_oliver_group workflows metadatas Hall)
    as (c & _ & Hholds & ->).
  eexists. split; [done|]. split.
  - rewrite length_fmap. apply Permutation_length, NoDup_Permutation.
    + apply first_occurrences_NoDup.
    + apply NoDup_remove_dups.
    + intros g. by rewrite first_occurrences_elem_of, elem_of_remove_dups.
  - apply Forall_fmap, Forall_forall. intros g _. simpl.
    apply set_eq. intros k.
    rewrite elem_of_dom, row_of_lookup, elem_of_union, elem_of_singleton.
    rewrite Hholds.
    destruct (decide (cell_count get_oliver_group workflows metadatas g k
                      = 0%nat)) as [Hz|Hz].
    + destruct (decide (k = "Group Name")) as [->|Hk].
      * split; [by left|by eexists].
      * destruct (decide (k ∈ statuses_seen workflows metadatas)).
        -- split; [by right|by eexists].
        -- split; [by intros [? ?]|by intros [|]].
    + split; [|by eexists]. intros _. right.
      apply (statuses_seen_elem_of get_oliver_group). by exists g.
Qed.

(** X12: the rows come in the order in which the groups first appear among
    the workflows; the row of a group holds, under every status found in the
    metadata, the number of the group's workflows of that status, 0 where it
    has none.  Under "Group Name" it holds the group's name, unless the
    group has workflows whose status is itself "Group Name": their count
    then takes the cell. *)
Theorem X12_table_cells (get_oliver_group : Metadata -> option string)
    (workflows : list Workflow) (metadatas : gmap string Metadata) :
  Forall (fun w => is_Some (metadatas !! wf_id w)) workflows ->
  exists rows,
    table.rows get_oliver_group workflows metadatas = Ok rows
    /\ forall i g,
         first_occurrences
           (group_labels get_oliver_group workflows metadatas) !! i = Some g ->
         exists row,
           rows !! i = Some row
           /\ (forall st,
                 st ∈ statuses_seen workflows metadatas ->
                 st <> "Group Name" ->
                 row !! st
                 = Some (table.Int
                           (cell_count get_oliver_group workflows metadatas
                              g st)))
           /\ row !! "Group Name"
              = Some (let n :=
                        cell_count get_oliver_group workflows metadatas g
                          "Group Name" in
                      if decide (n = 0%nat) then table.Str g else table.Int n).
Proof.
  intros Hall.
  destruct (rows_eq get_oliver_group workflows metadatas Hall)
    as (c & _ & Hholds & ->).
  eexists. split; [done|]. intros i g Hg.
  eexists. split; [by rewrite list_lookup_fmap, Hg|]. split.
  - intros st Hst Hne. rewrite row_of_lookup, Hholds.
    case_decide as Hz; [|done].
    rewrite decide_False, decide_True by done. by rewrite Hz.
  - rewrite row_of_lookup, Hholds. simpl.
    by case_decide.
Qed.

(** ** Status flags and the rest of the query *)

(** X13: the status flags only narrow the answer.  Whatever the other
    arguments, if the query without flags returns [everything], the query
    with flags returns the records of [everything] that pass the status
    selection, in the same order: the flags change neither the listing nor
    the batch that is selected. *)
Theorem X13_flags_only_narrow name_key group_key cromwell now hours name
    group uuid wname ago mins r a f s everything :
  workflows.get_workflows name_key group_key cromwell now hours name group
    uuid wname ago mins false false false false = Ok everything ->
  workflows.get_workflows name_key group_key cromwell now hours name group
    uuid wname ago mins r a f s
  = Ok (filter (wanted r a f s) everything).
Proof.
  rewrite !get_workflows_eq.
  destruct (workflows.submission_bound now hours) as [bound|e]; [|done].
  simpl. destruct (match ago with Some _ => _ | None => _ end) as [ws|e];
    [|done].
  simpl. intros [= <-]. rewrite !filter_statuses_wanted. f_equal.
  f_equal. symmetry. apply filter_all, Forall_forall. intros w _. by left.
Qed.

(** ** The further properties at sample inputs *)



(** One batch into the future of the five-record sample. *)
Lemma X4_five_minus_one :
  samples.five 0 <> []
  /\ -1 < 0
  /\ workflows.get_workflows samples.name_key samples.group_key
       (samples.client (samples.five 0)) samples.new_year_2020 None
       None None None None (Some (-1)) 5 false false false false
     = Ok [].
Proof.
  assert (samples.five 0 <> []) as Hne by discriminate.
  assert (-1 < 0) as Hn by reflexivity.
  split; [exact Hne|]. split; [exact Hn|].
  exact (X4_negative_batch_is_empty samples.name_key samples.group_key
           (samples.client (samples.five 0)) samples.new_year_2020 None
           None None None None (-1) 5 false false false false None
           eq_refl Hne Hn).
Defined.

(** The batch before the last of the five-record sample is not empty. *)
Lemma X5_five_one_ago :
  exists res,
    workflows.get_workflows samples.name_key samples.group_key
      (samples.client (samples.five 0)) samples.new_year_2020 None
      None None None None (Some 1) 5 false false false false = Ok res
    /\ res <> [].
Proof.
  assert (samples.five 0 <> []) as Hne by discriminate.
  destruct (X5_batch_empty_iff samples.name_key samples.group_key
              (samples.client (samples.five 0)) samples.new_year_2020 None
              None None None None 1 5 None eq_refl Hne)
    as (res & Hres & Hiff & _).
  exists res. split; [exact Hres|].
  intros Hnil. apply Hiff in Hnil.
  assert (Z.of_nat
            (batch_count
               (batch.batch_workflows
                  (py_sorted wf_submission
                     (listing samples.name_key samples.group_key
                        (samples.client (samples.five 0)) None None None None
                        None)) 5)) = 2) as Hcount by (vm_compute; reflexivity).
  rewrite Hcount in Hnil. lia.
Defined.

(** The counts of the alpha summary add up to its two workflows. *)
Lemma X9_alpha_total :
  status.print_workflow_summary samples.get_group samples.alpha_workflows
    samples.alpha_metadatas
  = Ok {[ "alpha" := {[ "Running" := 1%nat; "Succeeded" := 1%nat ]} ]}
  /\ total {[ "alpha" := {[ "Running" := 1%nat; "Succeeded" := 1%nat ]} ]}
     = 2%nat.
Proof.
  assert (status.print_workflow_summary samples.get_group
            samples.alpha_workflows samples.alpha_metadatas
          = Ok {[ "alpha" := {[ "Running" := 1%nat; "Succeeded" := 1%nat ]} ]})
    as Hsum by (vm_compute; reflexivity).
  split; [exact Hsum|].
  exact (X9_summary_total samples.get_group samples.alpha_workflows
           samples.alpha_metadatas _ Hsum).
Defined.

(** The table of the alpha sample has one row. *)
Lemma X11_alpha_shape :
  Forall (fun w => is_Some (samples.alpha_metadatas !! wf_id w))
    samples.alpha_workflows
  /\ exists rows,
       table.rows samples.get_group samples.alpha_workflows
         samples.alpha_metadatas = Ok rows
       /\ length rows = 1%nat.
Proof.
  assert (Forall (fun w => is_Some (samples.alpha_metadatas !! wf_id w))
            samples.alpha_workflows) as Hall.
  { repeat constructor; eexists; vm_compute; reflexivity. }
  split; [exact Hall|].
  destruct (X11_table_shape samples.get_group samples.alpha_workflows
              samples.alpha_metadatas Hall) as (rows & Hrows & Hlen & _).
  exists rows. split; [exact Hrows|]. exact Hlen.
Defined.

(** The row of the alpha group. *)
Lemma X12_alpha_row :
  Forall (fun w => is_Some (samples.alpha_metadatas !! wf_id w))
    samples.alpha_workflows
  /\ exists rows row,
       table.rows samples.get_group samples.alpha_workflows
         samples.alpha_metadatas = Ok rows
       /\ rows !! 0%nat = Some row
       /\ row !! "Running" = Some (table.Int 1)
       /\ row !! "Group Name" = Some (table.Str "alpha").
Proof.
  assert (Forall (fun w => is_Some (samples.alpha_metadatas !! wf_id w))
            samples.alpha_workflows) as Hall.
  { repeat constructor; eexists; vm_compute; reflexivity. }
  split; [exact Hall|].
  destruct (X12_table_cells samples.get_group samples.alpha_workflows
              samples.alpha_metadatas Hall) as (rows & Hrows & Hspec).
  destruct (Hspec 0%nat "alpha") as (row & Hrow & Hcells & Hname).
  { vm_compute. reflexivity. }
  exists rows, row. split; [exact Hrows|]. split; [exact Hrow|]. split.
  - apply (Hcells "Running"); [|discriminate].
    apply elem_of_list_to_set. vm_compute. by left.
  - exact Hname.
Defined.

(** One batch ago on the five-record sample, without flags and with Failed
    opted into: the first batch holds the one failed record. *)
Lemma X13_five_failed :
  workflows.get_workflows samples.name_key samples.group_key
    (samples.client (samples.five 0)) samples.new_year_2020 None
    None None None None (Some 1) 5 false false false false
  = Ok ((fun w => batch.set_batch w 0) <$> take 3 (samples.five 0))
  /\ workflows.get_workflows samples.name_key samples.group_key
       (samples.client (samples.five 0)) samples.new_year_2020 None
       None None None None (Some 1) 5 false false true false
     = Ok [batch.set_batch
             (samples.workflow "w1" "Failed" (0 + 2 * samples.minute)) 0].
Proof.
  assert (workflows.get_workflows samples.name_key samples.group_key
            (samples.client (samples.five 0)) samples.new_year_2020 None
            None None None None (Some 1) 5 false false false false
          = Ok ((fun w => batch.set_batch w 0) <$> take 3 (samples.five 0)))
    as Hall by (vm_compute; reflexivity).
  split; [exact Hall|].
  rewrite (X13_flags_only_narrow samples.name_key samples.group_key
             (samples.client (samples.five 0)) samples.new_year_2020 None
             None None None None (Some 1) 5 false false true false _ Hall).
  vm_compute. reflexivity.
Defined.
